(** * mac2mqtt: command routing, state publishing and discovery

    A shallow embedding of the bridge in [main.go] and of the second
    variant of the same program kept in the repository (called
    [Part000] below).  Strings are byte strings, Go's [int] is a 64-bit
    integer carried in [Z], effects (external commands, broker publishes,
    sleeps, log lines, process exit and panics) are explicit: every
    effectful function returns an outcome, the new state and the events
    it emitted. *)

From Stdlib Require Import ZArith Lia List Ascii String DecimalString Bool.
From Stdlib Require Import DecimalPos DecimalZ.
From stdpp Require Import base strings list gmap.
Import ListNotations.
Open Scope string_scope.
Open Scope Z_scope.
Open Scope list_scope.

(** ** Characters *)

Definition byte_of (c : ascii) : Z := Z.of_N (N_of_ascii c).

Definition in_range (lo hi : Z) (c : ascii) : bool :=
  (lo <=? byte_of c) && (byte_of c <=? hi).

(** [\d] of Go's regexp and the digits of strconv: ASCII 0-9. *)
Definition is_digit (c : ascii) : bool := in_range 48 57 c.

Definition quote_char : ascii := ascii_of_nat 34.
Definition backslash : ascii := ascii_of_nat 92.
Definition newline : ascii := ascii_of_nat 10.

Fixpoint string_forallb (p : ascii -> bool) (s : string) : bool :=
  match s with
  | EmptyString => true
  | String c r => p c && string_forallb p r
  end.

(** ** package strconv *)

Module GoStrconv.

Definition minInt : Z := - 2 ^ 63.
Definition maxInt : Z := 2 ^ 63 - 1.

Fixpoint parse_digits (acc : Z) (s : string) : option Z :=
  match s with
  | EmptyString => Some acc
  | String c r =>
      if is_digit c then parse_digits (acc * 10 + (byte_of c - 48)) r
      else None
  end.

(** [strconv.Atoi]: an optional sign, at least one decimal digit and
    nothing else; the value must fit Go's 64-bit [int]. [None] is a
    non-nil [err]. *)
Definition Atoi (s : string) : option Z :=
  let '(neg, ds) :=
    match s with
    | String c r =>
        if Ascii.eqb c "-" then (true, r)
        else if Ascii.eqb c "+" then (false, r)
        else (false, s)
    | EmptyString => (false, s)
    end in
  match ds with
  | EmptyString => None
  | String _ _ =>
      match parse_digits 0 ds with
      | Some n =>
          let v := if neg then - n else n in
          if (minInt <=? v) && (v <=? maxInt) then Some v else None
      | None => None
      end
  end.

(** [strconv.Itoa]. *)
Definition Itoa (i : Z) : string := NilEmpty.string_of_int (Z.to_int i).

(** [strconv.ParseBool]: the twelve spellings of its switch. *)
Definition ParseBool (str : string) : option bool :=
  if existsb (String.eqb str) ["1"; "t"; "T"; "true"; "TRUE"; "True"]
  then Some true
  else if existsb (String.eqb str) ["0"; "f"; "F"; "false"; "FALSE"; "False"]
  then Some false
  else None.

Definition FormatBool (b : bool) : string := if b then "true" else "false".

End GoStrconv.

(** ** package strings *)

Module GoStrings.

Definition HasSuffix (s suffix : string) : bool :=
  let n := String.length s in
  let k := String.length suffix in
  (k <=? n)%nat && String.eqb (substring (n - k) k s) suffix.

Definition TrimSuffix (s suffix : string) : string :=
  if HasSuffix s suffix
  then substring 0 (String.length s - String.length suffix) s
  else s.

Fixpoint Contains (s substr : string) : bool :=
  String.prefix substr s ||
  match s with
  | EmptyString => false
  | String _ r => Contains r substr
  end.

(** [strings.Split(s, sep)[0]] for a one-byte separator: the part of
    [s] before the first [sep], all of [s] when there is none. *)
Fixpoint Split_first (s : string) (sep : ascii) : string :=
  match s with
  | EmptyString => EmptyString
  | String c r =>
      if Ascii.eqb c sep then EmptyString else String c (Split_first r sep)
  end.

End GoStrings.

(** ** package regexp, for the two expressions of the program *)

Module GoRegexp.

(** The class [[a-zA-Z0-9_-]]. *)
Definition hostname_char (c : ascii) : bool :=
  in_range 97 122 c || in_range 65 90 c || is_digit c
  || Ascii.eqb c "_" || Ascii.eqb c "-".

(** [regexp.Compile("[^a-zA-Z0-9_-]+").ReplaceAllString(s, "")]:
    every maximal run of bytes outside the class is replaced by the
    empty string.  A byte of a multi-byte rune is never in the class,
    so deleting runes and deleting bytes agree. *)
Fixpoint remove_non_hostname_chars (s : string) : string :=
  match s with
  | EmptyString => EmptyString
  | String c r =>
      if hostname_char c then String c (remove_non_hostname_chars r)
      else remove_non_hostname_chars r
  end.

(** The longest prefix of digits and what follows it. *)
Fixpoint span_digits (s : string) : string * string :=
  match s with
  | EmptyString => (EmptyString, EmptyString)
  | String c r =>
      if is_digit c
      then let '(ds, rest) := span_digits r in (String c ds, rest)
      else (EmptyString, s)
  end.

(** [regexp.MustCompile(`(\d+)%`).FindStringSubmatch(s)]: the
    leftmost match, as [whole match; group 1], or [[]] (Go's nil
    slice) when there is none.  At a start position the greedy [\d+]
    takes the whole digit run; a shorter run would have to be followed
    by a digit, never by the percent sign. *)
Fixpoint FindStringSubmatch_digits_percent (s : string) : list string :=
  match s with
  | EmptyString => []
  | String _ r =>
      match span_digits s with
      | (String d ds, String c _) =>
          if Ascii.eqb c "%"
          then [String d ds +:+ "%"; String d ds]
          else FindStringSubmatch_digits_percent r
      | _ => FindStringSubmatch_digits_percent r
      end
  end.

End GoRegexp.

(** ** package encoding/json, as far as [json.Marshal] of the
    discovery structs goes *)

Module GoJson.

Definition hex_digit (n : Z) : ascii :=
  match String.get (Z.to_nat n) "0123456789abcdef" with
  | Some c => c
  | None => "0"%char
  end.

(** [htmlSafeSet]: the ASCII bytes written as they are. *)
Definition htmlSafe (c : ascii) : bool :=
  in_range 32 127 c
  && negb (Ascii.eqb c quote_char || Ascii.eqb c backslash
           || Ascii.eqb c "&" || Ascii.eqb c "<" || Ascii.eqb c ">").

(** The escape of an ASCII byte outside [htmlSafeSet] (Go 1.22 and
    later, where backspace and form feed have short escapes). *)
Definition escape_byte (c : ascii) : string :=
  if Ascii.eqb c quote_char || Ascii.eqb c backslash
  then String backslash (String c EmptyString)
  else if byte_of c =? 8 then String backslash "b"
  else if byte_of c =? 12 then String backslash "f"
  else if byte_of c =? 10 then String backslash "n"
  else if byte_of c =? 13 then String backslash "r"
  else if byte_of c =? 9 then String backslash "t"
  else String backslash
         ("u00" +:+ String (hex_digit (byte_of c / 16))
                      (String (hex_digit (byte_of c mod 16)) EmptyString)).

(** [utf8.DecodeRuneInString]: the byte length of the well-formed
    rune [s] starts with, [0%nat] where Go reports [RuneError] of
    width 1 (an ill-formed or truncated sequence). *)
Definition utf8_size (s : string) : nat :=
  match s with
  | EmptyString => 0%nat
  | String b0 r =>
      let cont := in_range 128 191 in
      if in_range 0 127 b0 then 1%nat
      else if in_range 194 223 b0 then
        match r with
        | String b1 _ => if cont b1 then 2%nat else 0%nat
        | _ => 0%nat
        end
      else if in_range 224 239 b0 then
        let second :=
          if byte_of b0 =? 224 then in_range 160 191
          else if byte_of b0 =? 237 then in_range 128 159
          else cont in
        match r with
        | String b1 (String b2 _) =>
            if second b1 && cont b2 then 3%nat else 0%nat
        | _ => 0%nat
        end
      else if in_range 240 244 b0 then
        let second :=
          if byte_of b0 =? 240 then in_range 144 191
          else if byte_of b0 =? 244 then in_range 128 143
          else cont in
        match r with
        | String b1 (String b2 (String b3 _)) =>
            if second b1 && cont b2 && cont b3 then 4%nat else 0%nat
        | _ => 0%nat
        end
      else 0%nat
  end.

(** U+2028 and U+2029 (bytes E2 80 A8 and E2 80 A9) are escaped. *)
Definition line_separator (s : string) : option ascii :=
  match s with
  | String b0 (String b1 (String b2 _)) =>
      if (byte_of b0 =? 226) && (byte_of b1 =? 128) && in_range 168 169 b2
      then Some (hex_digit (byte_of b2 - 160))
      else None
  | _ => None
  end.

(** Where the encoder stands: at a rune boundary, or inside a rune
    whose remaining [k] bytes are copied or, once the rune was written
    as an escape, dropped. *)
Inductive cursor := Boundary | Copy (k : nat) | Drop (k : nat).

Fixpoint appendString (at_ : cursor) (s : string) : string :=
  match s with
  | EmptyString => EmptyString
  | String c r =>
      match at_ with
      | Copy (S k) => String c (appendString (Copy k) r)
      | Drop (S k) => appendString (Drop k) r
      | _ =>
          if in_range 0 127 c then
            (if htmlSafe c then String c EmptyString else escape_byte c)
            +:+ appendString Boundary r
          else
            match utf8_size s with
            | O => String backslash "ufffd" +:+ appendString Boundary r
            | S k =>
                match line_separator s with
                | Some h =>
                    String backslash ("u202" +:+ String h EmptyString)
                    +:+ appendString (Drop k) r
                | None => String c (appendString (Copy k) r)
                end
            end
      end
  end.

Definition quoted (body : string) : string :=
  String quote_char (body +:+ String quote_char EmptyString).

Definition encode_string (s : string) : string :=
  quoted (appendString Boundary s).

(** The values the discovery structs are made of. *)
#[warnings="-register-all"] Inductive value :=
| JString (s : string)
| JInt (i : Z)
| JArray (items : list value)
| JObject (fields : list (string * value)).

Definition join_commas (parts : list string) : string :=
  match parts with
  | [] => EmptyString
  | p :: ps => fold_left (fun acc q => acc +:+ "," +:+ q) ps p
  end.

Fixpoint encode (v : value) : string :=
  match v with
  | JString s => encode_string s
  | JInt i => GoStrconv.Itoa i
  | JArray items => "[" +:+ join_commas (map encode items) +:+ "]"
  | JObject fields =>
      "{" +:+ join_commas
                (map (fun kv => encode_string (fst kv) +:+ ":" +:+ encode (snd kv))
                     fields)
          +:+ "}"
  end.

(** A string field: always written, or left out when empty
    ([omitempty]). *)
Definition field (key s : string) : list (string * value) :=
  [(key, JString s)].

Definition field_omitempty (key s : string) : list (string * value) :=
  if String.eqb s EmptyString then [] else [(key, JString s)].

End GoJson.

(** ** The discovery structs of the program *)

Record Device := mkDevice {
  Identifiers : list string;
  Device_Name : string;
  Manufacturer : string;
  Model : string
}.

Record SensorConfig := mkSensorConfig {
  Sensor_Name : string;
  Sensor_StateTopic : string;
  Sensor_UniqueID : string;
  UnitOfMeasurement : string;
  Sensor_DeviceClass : string;
  ValueTemplate : string;
  Sensor_Device : Device
}.

Record BinarySensorConfig := mkBinarySensorConfig {
  Binary_Name : string;
  Binary_StateTopic : string;
  Binary_UniqueID : string;
  Binary_DeviceClass : string;
  PayloadOn : string;
  PayloadOff : string;
  Binary_Device : Device
}.

Record SwitchConfig := mkSwitchConfig {
  Switch_Name : string;
  Switch_CommandTopic : string;
  Switch_StateTopic : string;
  Switch_UniqueID : string;
  Switch_Device : Device
}.

Record NumberConfig := mkNumberConfig {
  Number_Name : string;
  Number_CommandTopic : string;
  Number_StateTopic : string;
  Number_UniqueID : string;
  Min : Z;
  Max : Z;
  Number_Device : Device
}.

(** What [publishConfig] receives as [config interface{}]. *)
Inductive entity_config :=
| OfNumber (c : NumberConfig)
| OfSwitch (c : SwitchConfig)
| OfSensor (c : SensorConfig)
| OfBinarySensor (c : BinarySensorConfig).

Module Marshal.
Import GoJson.

(** Fields in declaration order under their [json] tags.  The
    program only builds [Identifiers] as a one-element slice. *)
Definition device (d : Device) : value :=
  JObject ([("identifiers", JArray (map JString (Identifiers d)))]
           ++ field "name" (Device_Name d)
           ++ field "manufacturer" (Manufacturer d)
           ++ field "model" (Model d)).

Definition number (c : NumberConfig) : value :=
  JObject (field "name" (Number_Name c)
           ++ field "command_topic" (Number_CommandTopic c)
           ++ field "state_topic" (Number_StateTopic c)
           ++ field "unique_id" (Number_UniqueID c)
           ++ [("min", JInt (Min c)); ("max", JInt (Max c));
               ("device", device (Number_Device c))]).

Definition switch (c : SwitchConfig) : value :=
  JObject (field "name" (Switch_Name c)
           ++ field "command_topic" (Switch_CommandTopic c)
           ++ field_omitempty "state_topic" (Switch_StateTopic c)
           ++ field "unique_id" (Switch_UniqueID c)
           ++ [("device", device (Switch_Device c))]).

Definition sensor (c : SensorConfig) : value :=
  JObject (field "name" (Sensor_Name c)
           ++ field "state_topic" (Sensor_StateTopic c)
           ++ field "unique_id" (Sensor_UniqueID c)
           ++ field_omitempty "unit_of_measurement" (UnitOfMeasurement c)
           ++ field_omitempty "device_class" (Sensor_DeviceClass c)
           ++ field_omitempty "value_template" (ValueTemplate c)
           ++ [("device", device (Sensor_Device c))]).

Definition binary_sensor (c : BinarySensorConfig) : value :=
  JObject (field "name" (Binary_Name c)
           ++ field "state_topic" (Binary_StateTopic c)
           ++ field "unique_id" (Binary_UniqueID c)
           ++ field_omitempty "device_class" (Binary_DeviceClass c)
           ++ field_omitempty "payload_on" (PayloadOn c)
           ++ field_omitempty "payload_off" (PayloadOff c)
           ++ [("device", device (Binary_Device c))]).

Definition to_value (c : entity_config) : value :=
  match c with
  | OfNumber n => number n
  | OfSwitch s => switch s
  | OfSensor s => sensor s
  | OfBinarySensor b => binary_sensor b
  end.

(** [json.Marshal(config)]; it has no error for these structs. *)
Definition Marshal (c : entity_config) : string := encode (to_value c).

End Marshal.

Definition unique_id_of (c : entity_config) : string :=
  match c with
  | OfNumber n => Number_UniqueID n
  | OfSwitch s => Switch_UniqueID s
  | OfSensor s => Sensor_UniqueID s
  | OfBinarySensor b => Binary_UniqueID b
  end.

(** ** The runtime: events, the host, and the monad of the program *)

(** [time.Duration], in nanoseconds. *)
Definition Second : Z := 1000000000.
Definition tokenTimeOut : Z := 5 * Second.

Inductive go_error :=
| ErrExternal (msg : string)          (* reported by the OS or the broker *)
| ErrNum (fn input : string).         (* a *strconv.NumError *)

Inductive logarg :=
| LString (s : string)
| LDuration (d : Z)
| LError (e : go_error)
| LNil.                               (* a nil error *)

Inductive event :=
| EvExec (name : string) (arg : list string)   (* exec.Command(name, arg...).Output() *)
| EvPublish (topic : string) (qos : Z) (retained : bool) (payload : string)
| EvSubscribe (topic : string) (qos : Z)
| EvNewClient (broker user password : string)  (* mqtt.NewClient(opts) *)
| EvConnect                                    (* client.Connect() *)
| EvGo                                         (* go func() { reconnect loop }() *)
| EvWaitTimeout (d : Z)                        (* token.WaitTimeout(d) *)
| EvSleep (d : Z)                              (* time.Sleep(d) *)
| EvPrintln (args : list logarg)               (* log.Println *)
| EvPrintf (format : string) (args : list logarg)
| EvFatal (args : list logarg).                (* log.Fatal, before the exit *)

(** How a broker token ends: [WaitTimeout] returns false; it returns
    true and [Error()] is set; it returns true and [Error()] is nil. *)
Inductive token :=
| TokenTimedOut
| TokenError (e : string)
| TokenDone.

Inductive cmd_result :=
| CmdOutput (stdout : string)
| CmdError (err : string).

Record config := mkConfig {
  Ip : string;
  Port : string;
  User : string;
  Password : string
}.

(** Everything outside the process, as a state [W] with the calls the
    program makes into it: running a command and waiting for its
    output, the process uid, the machine's name, reading a file, the
    YAML decoder, the passing of time during a sleep, and the broker
    client.  A broker call returns how its token ends and the world in
    which the program goes on after waiting for it. *)
Record Host (W : Type) := mkHost {
  os_exec : string -> list string -> W -> cmd_result * W;
  os_Getuid : W -> Z;
  os_Hostname : W -> cmd_result;
  ReadFile : string -> W -> cmd_result;
  yaml_Unmarshal : string -> config -> go_error + config;
  time_passes : Z -> W -> W;
  mqtt_Connect : W -> token * W;
  mqtt_Publish : string -> Z -> bool -> string -> W -> token * W;
  mqtt_Subscribe : string -> Z -> W -> token * W
}.
Arguments os_exec {W}.
Arguments os_Getuid {W}.
Arguments os_Hostname {W}.
Arguments ReadFile {W}.
Arguments yaml_Unmarshal {W}.
Arguments time_passes {W}.
Arguments mqtt_Connect {W}.
Arguments mqtt_Publish {W}.
Arguments mqtt_Subscribe {W}.

(** The package-level variables [hostname] and [model]. *)
Record Vars := mkVars {
  hostname : string;
  model : string
}.

Inductive outcome (A : Type) :=
| Done (a : A)
| Exit (code : Z)      (* log.Fatal: os.Exit(1) *)
| Panic.               (* a run-time panic, which ends the process *)
Arguments Done {A}.
Arguments Exit {A}.
Arguments Panic {A}.

Definition Go (W A : Type) : Type :=
  Vars * W -> outcome A * (Vars * W) * list event.

Definition go_ret {W A} (a : A) : Go W A := fun s => (Done a, s, []).

Definition go_bind {W A B} (k : A -> Go W B) (m : Go W A) : Go W B :=
  fun s =>
    let '(o, s1, t1) := m s in
    match o with
    | Done a => let '(o2, s2, t2) := k a s1 in (o2, s2, t1 ++ t2)
    | Exit c => (Exit c, s1, t1)
    | Panic => (Panic, s1, t1)
    end.

#[global] Instance Go_ret {W} : MRet (Go W) := @go_ret W.
#[global] Instance Go_bind {W} : MBind (Go W) := @go_bind W.

Definition result_of {W A} (r : outcome A * (Vars * W) * list event) : outcome A :=
  fst (fst r).
Definition vars_of {W A} (r : outcome A * (Vars * W) * list event) : Vars :=
  fst (snd (fst r)).
Definition world_of {W A} (r : outcome A * (Vars * W) * list event) : W :=
  snd (snd (fst r)).
Definition trace_of {W A} (r : outcome A * (Vars * W) * list event) : list event :=
  snd r.

Section Program.

Context {W : Type} (H : Host W).

#[local] Abbreviation Go := (Go W).

Definition emit (e : event) : Go unit := fun s => (Done tt, s, [e]).

Definition Println (args : list logarg) : Go unit := emit (EvPrintln args).
Definition Printf (format : string) (args : list logarg) : Go unit :=
  emit (EvPrintf format args).
Definition Fatal {A} (args : list logarg) : Go A :=
  fun s => (Exit 1, s, [EvFatal args]).
Definition panic {A} : Go A := fun s => (Panic, s, []).

Definition read_hostname : Go string := fun s => (Done (hostname (fst s)), s, []).
Definition read_model : Go string := fun s => (Done (model (fst s)), s, []).
Definition write_hostname (v : string) : Go unit :=
  fun s => (Done tt, (mkVars v (model (fst s)), snd s), []).
Definition write_model (v : string) : Go unit :=
  fun s => (Done tt, (mkVars (hostname (fst s)) v, snd s), []).

Definition Sleep (d : Z) : Go unit :=
  fun s => (Done tt, (fst s, time_passes H d (snd s)), [EvSleep d]).

Definition Output (name : string) (arg : list string) : Go cmd_result :=
  fun s =>
    let '(r, w) := os_exec H name arg (snd s) in
    (Done r, (fst s, w), [EvExec name arg]).

Definition Getuid : Go Z := fun s => (Done (os_Getuid H (snd s)), s, []).

Definition client_Publish (topic : string) (qos : Z) (retained : bool)
    (payload : string) : Go token :=
  fun s =>
    let '(t, w) := mqtt_Publish H topic qos retained payload (snd s) in
    (Done t, (fst s, w), [EvPublish topic qos retained payload]).

Definition client_Subscribe (topic : string) (qos : Z) : Go token :=
  fun s =>
    let '(t, w) := mqtt_Subscribe H topic qos (snd s) in
    (Done t, (fst s, w), [EvSubscribe topic qos]).

Definition client_Connect : Go token :=
  fun s =>
    let '(t, w) := mqtt_Connect H (snd s) in
    (Done t, (fst s, w), [EvConnect]).

Definition WaitTimeout (t : token) (d : Z) : Go bool :=
  fun s =>
    (Done (match t with TokenTimedOut => false | _ => true end), s,
     [EvWaitTimeout d]).

Definition token_Error (t : token) : option go_error :=
  match t with
  | TokenError e => Some (ErrExternal e)
  | _ => None
  end.

(** The pattern after every publish and subscribe:
    [if !token.WaitTimeout(tokenTimeOut) { log } else if token.Error() != nil { log }]. *)
Definition log_token (t : token) (timed_out failed : string) : Go unit :=
  ok ← WaitTimeout t tokenTimeOut;
  if negb ok then Printf timed_out [LDuration tokenTimeOut]
  else match token_Error t with
       | Some e => Printf failed [LError e]
       | None => mret tt
       end.

(** *** Host Control Interface *)

Definition osascript : string := "/usr/bin/osascript".

Definition getCommandOutput (name : string) (arg : list string) : Go string :=
  r ← Output name arg;
  match r with
  | CmdError err => Fatal [LError (ErrExternal err)]
  | CmdOutput stdout =>
      mret (GoStrings.TrimSuffix stdout (String newline EmptyString))
  end.

Definition getMuteStatus : Go bool :=
  output ← getCommandOutput osascript ["-e"; "output muted of (get volume settings)"];
  match GoStrconv.ParseBool output with
  | Some b => mret b
  | None => Fatal [LError (ErrNum "ParseBool" output)]
  end.

Definition getCurrentVolume : Go Z :=
  output ← getCommandOutput osascript ["-e"; "output volume of (get volume settings)"];
  match GoStrconv.Atoi output with
  | Some i => mret i
  | None => Fatal [LError (ErrNum "Atoi" output)]
  end.

Definition runCommand (name : string) (arg : list string) : Go unit :=
  r ← Output name arg;
  match r with
  | CmdError err => Fatal [LError (ErrExternal err)]
  | CmdOutput _ => mret tt
  end.

(** [r.FindStringSubmatch(output)[1]] panics when the slice is nil. *)
Definition getBatteryInfo : Go (string * bool) :=
  output ← getCommandOutput "/usr/bin/pmset" ["-g"; "batt"];
  match GoRegexp.FindStringSubmatch_digits_percent output !! 1%nat with
  | None => panic
  | Some percent => mret (percent, GoStrings.Contains output "AC Power")
  end.

Definition setVolume (i : Z) : Go unit :=
  runCommand osascript ["-e"; "set volume output volume " +:+ GoStrconv.Itoa i].

Definition setMute (b : bool) : Go unit :=
  runCommand osascript ["-e"; "set volume output muted " +:+ GoStrconv.FormatBool b].

Definition commandSleep : Go unit := runCommand "pmset" ["sleepnow"].

Definition commandDisplaySleep : Go unit := runCommand "pmset" ["displaysleepnow"].

Definition shutdown_script : string :=
  "tell app " +:+ GoJson.quoted "System Events" +:+ " to shut down".

Definition commandShutdown : Go unit :=
  uid ← Getuid;
  if uid =? 0 then runCommand "shutdown" ["-h"; "now"]
  else runCommand osascript ["-e"; shutdown_script].

(** *** State Publisher *)

Definition getTopicPrefix : Go string :=
  h ← read_hostname; mret ("homeassistant/" +:+ h).

Definition updateVolume : Go unit :=
  prefix ← getTopicPrefix;
  volume ← getCurrentVolume;
  t ← client_Publish (prefix +:+ "/state/volume") 0 false (GoStrconv.Itoa volume);
  log_token t "Update volume timed out after %v" "Error updating volume: %v".

Definition updateMute : Go unit :=
  prefix ← getTopicPrefix;
  muted ← getMuteStatus;
  t ← client_Publish (prefix +:+ "/state/mute") 0 false (GoStrconv.FormatBool muted);
  log_token t "Update mute timed out after %v" "Error updating mute: %v".

Definition updateBattery : Go unit :=
  info ← getBatteryInfo;
  prefix ← getTopicPrefix;
  t ← client_Publish (prefix +:+ "/state/battery") 0 false (fst info);
  log_token t "Update battery timed out after %v" "Error updating battery: %v";;
  prefix ← getTopicPrefix;
  t ← client_Publish (prefix +:+ "/state/power_adapter") 0 false
        (GoStrconv.FormatBool (snd info));
  log_token t "Update power adapter timed out after %v"
              "Error updating power adapter: %v".

(** *** Discovery Publisher *)

Definition publishConfig (component objectId : string) (cfg : entity_config) : Go unit :=
  let configTopic := "homeassistant/" +:+ component +:+ "/" +:+ objectId +:+ "/config" in
  let configBytes := Marshal.Marshal cfg in
  t ← client_Publish configTopic 0 true configBytes;
  ok ← WaitTimeout t tokenTimeOut;
  if negb ok then Printf "Publish config timed out after %v" [LDuration tokenTimeOut]
  else match token_Error t with
       | Some e => Printf "Error publishing config: %v" [LError e]
       | None => Printf "Published %s config to %s" [LString component; LString configTopic]
       end.

Definition device_of (hostname model : string) : Device :=
  {| Identifiers := [hostname];
     Device_Name := hostname;
     Manufacturer := "Apple";
     Model := model |}.

Definition volumeNumberConfig (hostname topicPrefix : string) (device : Device) : NumberConfig :=
  {| Number_Name := hostname +:+ " Volume";
     Number_CommandTopic := topicPrefix +:+ "/command/volume";
     Number_StateTopic := topicPrefix +:+ "/state/volume";
     Number_UniqueID := hostname +:+ "_volume";
     Min := 0;
     Max := 100;
     Number_Device := device |}.

Definition batteryConfig (hostname topicPrefix : string) (device : Device) : SensorConfig :=
  {| Sensor_Name := hostname +:+ " Battery Level";
     Sensor_StateTopic := topicPrefix +:+ "/state/battery";
     Sensor_UniqueID := hostname +:+ "_battery";
     UnitOfMeasurement := "%";
     Sensor_DeviceClass := "battery";
     ValueTemplate := EmptyString;
     Sensor_Device := device |}.

(** A switch of [main.go]: [label] is the display suffix, [action] the
    last topic segment, [suffix] the unique-id suffix. *)
Definition switchConfig (hostname topicPrefix label action suffix : string)
    (device : Device) : SwitchConfig :=
  {| Switch_Name := hostname +:+ label;
     Switch_CommandTopic := topicPrefix +:+ "/command/" +:+ action;
     Switch_StateTopic := topicPrefix +:+ "/state/" +:+ action;
     Switch_UniqueID := hostname +:+ suffix;
     Switch_Device := device |}.

(** *** Start-up and the connection *)

Definition getConfig (c : config) : Go config :=
  r ← (fun s => (Done (ReadFile H "mac2mqtt.yaml" (snd s)), s, []));
  match r with
  | CmdError err => Fatal [LError (ErrExternal err)]
  | CmdOutput configContent =>
      match yaml_Unmarshal H configContent c with
      | inl err => Fatal [LError err]
      | inr c =>
          if String.eqb (Ip c) EmptyString
          then Fatal [LString "Must specify mqtt_ip in mac2mqtt.yaml"]
          else if String.eqb (Port c) EmptyString
          then Fatal [LString "Must specify mqtt_port in mac2mqtt.yaml"]
          else if String.eqb (User c) EmptyString
          then Fatal [LString "Must specify mqtt_user in mac2mqtt.yaml"]
          else if String.eqb (Password c) EmptyString
          then Fatal [LString "Must specify mqtt_password in mac2mqtt.yaml"]
          else mret c
      end
  end.

(** The constant pattern always compiles, so only [os.Hostname] can
    fail. *)
Definition getHostname : Go string :=
  r ← (fun s => (Done (os_Hostname H (snd s)), s, []));
  match r with
  | CmdError err => Fatal [LError (ErrExternal err)]
  | CmdOutput hostname =>
      let firstPart := GoStrings.Split_first hostname "." in
      mret (GoRegexp.remove_non_hostname_chars firstPart)
  end.

Definition getMQTTClient (ip port user password : string) : Go unit :=
  emit (EvNewClient ("tcp://" +:+ ip +:+ ":" +:+ port) user password);;
  t ← client_Connect;
  ok ← WaitTimeout t (5 * Second);
  if negb ok then
    Printf "MQTT connection timed out" [];; panic
  else match token_Error t with
       | Some e => Printf "MQTT connection error: %v" [LError e];; panic
       | None => mret tt
       end.

(** [main] up to the tickers: the two package variables are assigned
    here and nowhere else. *)
Definition main_startup : Go unit :=
  Println [LString "Started"];;
  c ← getConfig (mkConfig EmptyString EmptyString EmptyString EmptyString);
  write_hostname "MacBookPRO_M2";;
  h ← read_hostname;
  write_model h;;
  getMQTTClient (Ip c) (Port c) (User c) (Password c).

(** The two cases of the ticker loop of [main]. *)
Definition volumeTick : Go unit := updateVolume;; updateMute.
Definition batteryTick : Go unit := updateBattery.

(** One turn of the [for] loop that [connectLostHandler] starts;
    [true] when the loop breaks. *)
Definition reconnect_iteration : Go bool :=
  Println [LString "Attempting to reconnect to MQTT..."];;
  t ← client_Connect;
  ok ← WaitTimeout t (5 * Second);
  if ok && match token_Error t with None => true | Some _ => false end then
    Println [LString "Reconnected to MQTT successfully"];; mret true
  else
    Printf "Failed to reconnect: %v. Retrying in 5 seconds..."
           [match token_Error t with Some e => LError e | None => LNil end];;
    Sleep (5 * Second);;
    mret false.

(** The loop itself, cut after [fuel] turns: [true] when it broke
    out, [false] when it is still retrying. *)
Fixpoint reconnect_loop (fuel : nat) : Go bool :=
  match fuel with
  | O => mret false
  | S n =>
      broke ← reconnect_iteration;
      if (broke : bool) then mret true else reconnect_loop n
  end.

(** The handler logs and starts the loop in a goroutine of its own. *)
Definition connectLostHandler (err : string) : Go unit :=
  Printf "Disconnected from MQTT: %v" [LError (ErrExternal err)];;
  emit EvGo.

End Program.

(** ** [main.go] *)

Module MainGo.
Section MainGo.

Context {W : Type} (H : Host W).

#[local] Abbreviation Go := (Go W).

Definition powerAdapterConfig (hostname topicPrefix : string) (device : Device)
    : BinarySensorConfig :=
  {| Binary_Name := hostname +:+ " Power Adapter";
     Binary_StateTopic := topicPrefix +:+ "/state/power_adapter";
     Binary_UniqueID := hostname +:+ "_power_adapter";
     Binary_DeviceClass := "plug";
     PayloadOn := "true";
     PayloadOff := "false";
     Binary_Device := device |}.

Definition publishHADiscoveryConfig : Go unit :=
  topicPrefix ← getTopicPrefix;
  hostname ← read_hostname;
  model ← read_model;
  let device := device_of hostname model in
  publishConfig H "number" (hostname +:+ "_volume")
    (OfNumber (volumeNumberConfig hostname topicPrefix device));;
  publishConfig H "switch" (hostname +:+ "_mute")
    (OfSwitch (switchConfig hostname topicPrefix " Mute" "mute" "_mute" device));;
  publishConfig H "sensor" (hostname +:+ "_battery")
    (OfSensor (batteryConfig hostname topicPrefix device));;
  publishConfig H "binary_sensor" (hostname +:+ "_power_adapter")
    (OfBinarySensor (powerAdapterConfig hostname topicPrefix device));;
  publishConfig H "switch" (hostname +:+ "_sleep")
    (OfSwitch (switchConfig hostname topicPrefix " Sleep" "sleep" "_sleep" device));;
  publishConfig H "switch" (hostname +:+ "_display_sleep")
    (OfSwitch (switchConfig hostname topicPrefix " Display Sleep" "displaysleep"
                 "_display_sleep" device));;
  publishConfig H "switch" (hostname +:+ "_shutdown")
    (OfSwitch (switchConfig hostname topicPrefix " Shutdown" "shutdown" "_shutdown" device)).

(** The acknowledgement published before a sleep, display-sleep or
    shutdown action, and the pause that lets it leave. *)
Definition acknowledge (action : string) : Go unit :=
  prefix ← getTopicPrefix;
  t ← client_Publish H (prefix +:+ "/state/" +:+ action) 0 false
        (action +:+ "_command_received");
  log_token t ("Publish " +:+ action +:+ " status timed out after %v")
              ("Error publishing " +:+ action +:+ " status: %v");;
  Sleep H (1 * Second).

(** The bodies of the five [if] statements of the callback that
    [listen] subscribes. *)
Definition on_volume (payload : string) : Go unit :=
  match GoStrconv.Atoi payload with
  | Some i =>
      if (0 <=? i) && (i <=? 100) then
        setVolume H i;; updateVolume H;; updateMute H
      else Println [LString "Incorrect value"]
  | None => Println [LString "Incorrect value"]
  end.

Definition on_mute (payload : string) : Go unit :=
  match GoStrconv.ParseBool payload with
  | Some b => setMute H b;; updateVolume H;; updateMute H
  | None => Println [LString "Incorrect value"]
  end.

Definition on_sleep (payload : string) : Go unit :=
  if String.eqb payload "sleep" then acknowledge "sleep";; commandSleep H
  else mret tt.

Definition on_displaysleep (payload : string) : Go unit :=
  if String.eqb payload "displaysleep"
  then acknowledge "displaysleep";; commandDisplaySleep H
  else mret tt.

Definition on_shutdown (payload : string) : Go unit :=
  if String.eqb payload "shutdown" then acknowledge "shutdown";; commandShutdown H
  else mret tt.

(** [if msg.Topic() == getTopicPrefix()+suffix { body }]. *)
Definition if_topic (topic suffix : string) (body : Go unit) : Go unit :=
  prefix ← getTopicPrefix;
  if String.eqb topic (prefix +:+ suffix) then body else mret tt.

(** The callback: the five statements in a row, each comparing the
    topic again. *)
Definition messageHandler (topic payload : string) : Go unit :=
  if_topic topic "/command/volume" (on_volume payload);;
  if_topic topic "/command/mute" (on_mute payload);;
  if_topic topic "/command/sleep" (on_sleep payload);;
  if_topic topic "/command/displaysleep" (on_displaysleep payload);;
  if_topic topic "/command/shutdown" (on_shutdown payload).

Definition listen (topic : string) : Go unit :=
  t ← client_Subscribe H topic 0;
  ok ← WaitTimeout t tokenTimeOut;
  if negb ok then Printf "Subscribe timed out after %v" [LDuration tokenTimeOut]
  else match token_Error t with
       | Some e => Printf "Token error: %s\n" [LError e]
       | None => mret tt
       end.

Definition connectHandler : Go unit :=
  Println [LString "Connected to MQTT"];;
  publishHADiscoveryConfig;;
  prefix ← getTopicPrefix;
  listen (prefix +:+ "/command/#").

End MainGo.
End MainGo.

(** ** The second variant of the program *)

Module Part000.
Section Part000.

Context {W : Type} (H : Host W).

#[local] Abbreviation Go := (Go W).

(** The bodies of the branches of the callback; a volume or mute
    change is given a second to settle before the state is read. *)
Definition on_volume (payload : string) : Go unit :=
  match GoStrconv.Atoi payload with
  | Some i =>
      if (0 <=? i) && (i <=? 100) then
        setVolume H i;; Sleep H (1 * Second);; updateVolume H;; updateMute H
      else Println [LString "Incorrect volume value"]
  | None => Println [LString "Incorrect volume value"]
  end.

Definition on_mute (payload : string) : Go unit :=
  match GoStrconv.ParseBool payload with
  | Some b => setMute H b;; Sleep H (1 * Second);; updateVolume H;; updateMute H
  | None => Println [LString "Incorrect mute value"]
  end.

Definition on_sleep (payload : string) : Go unit :=
  if String.eqb payload "sleep" then commandSleep H else mret tt.

Definition on_displaysleep (payload : string) : Go unit :=
  if String.eqb payload "displaysleep" then commandDisplaySleep H else mret tt.

Definition on_shutdown (payload : string) : Go unit :=
  if String.eqb payload "shutdown" then commandShutdown H else mret tt.

(** The line logged for every message: [log.Println] with three
    operands, so the verbs of the first stay as they are. *)
Definition received (topic commd : string) : event :=
  EvPrintln [LString "Received command:  [ %s ] [ %s ]"; LString topic; LString commd].

(** The callback: the message is logged, then the topics are tried in
    an [else if] chain. *)
Definition messageHandler (topic payload : string) : Go unit :=
  topicPrefix ← getTopicPrefix;
  emit (received topic payload);;
  if String.eqb topic (topicPrefix +:+ "/command/volume") then on_volume payload
  else if String.eqb topic (topicPrefix +:+ "/command/mute") then on_mute payload
  else if String.eqb topic (topicPrefix +:+ "/command/sleep") then on_sleep payload
  else if String.eqb topic (topicPrefix +:+ "/command/displaysleep")
  then on_displaysleep payload
  else if String.eqb topic (topicPrefix +:+ "/command/shutdown") then on_shutdown payload
  else mret tt.

End Part000.
End Part000.

(** ** Reading traces *)

Definition published_on (topic : string) (tr : list event) : list string :=
  omap (fun e =>
          match e with
          | EvPublish t _ _ payload =>
              if String.eqb t topic then Some payload else None
          | _ => None
          end) tr.

(** The publishes of a trace as (topic, retained, payload). *)
Definition publishes (tr : list event) : list (string * bool * string) :=
  omap (fun e =>
          match e with
          | EvPublish t _ r payload => Some (t, r, payload)
          | _ => None
          end) tr.

(** What the broker keeps: the last retained payload of each topic. *)
Definition retain_step (store : gmap string string) (p : string * bool * string)
  : gmap string string :=
  let '(t, r, payload) := p in
  if (r : bool) then <[t := payload]> store else store.

Definition retain (store : gmap string string) (tr : list event) : gmap string string :=
  fold_left retain_step (publishes tr) store.

Definition is_log (e : event) : bool :=
  match e with
  | EvPrintln _ | EvPrintf _ _ | EvFatal _ => true
  | _ => false
  end.

(** A trace without its log lines and its waits on broker tokens: the
    calls into the host, the publishes and the sleeps, in order. *)
Definition actions (tr : list event) : list event :=
  List.filter (fun e => negb (is_log e
                              || match e with EvWaitTimeout _ => true | _ => false end))
              tr.

Definition execs (tr : list event) : list (string * list string) :=
  omap (fun e => match e with EvExec n a => Some (n, a) | _ => None end) tr.

(** The commands behind the two mutators. *)
Definition setVolume_call (i : Z) : string * list string :=
  (osascript, ["-e"; "set volume output volume " +:+ GoStrconv.Itoa i]).
Definition setMute_call (b : bool) : string * list string :=
  (osascript, ["-e"; "set volume output muted " +:+ GoStrconv.FormatBool b]).
Definition getVolume_call : string * list string :=
  (osascript, ["-e"; "output volume of (get volume settings)"]).
Definition getMute_call : string * list string :=
  (osascript, ["-e"; "output muted of (get volume settings)"]).

(** ** A fake host

    A test double of the Host Control Interface: an audio device whose
    volume moves in steps of five, a battery report held as text, and a
    broker whose tokens all end the same way. *)

Module Fake.

Record World := mkWorld {
  volume : Z;
  muted : bool;
  pmset_batt : string;
  uid : Z;
  machine_name : string;
  broker : token
}.

Fixpoint strip_prefix (p s : string) : option string :=
  match p, s with
  | EmptyString, _ => Some s
  | String a p', String b s' => if Ascii.eqb a b then strip_prefix p' s' else None
  | String _ _, EmptyString => None
  end.

Definition line (s : string) : string := s +:+ String newline EmptyString.

Definition run_osascript (script : string) (w : World) : cmd_result * World :=
  if String.eqb script "output volume of (get volume settings)"
  then (CmdOutput (line (GoStrconv.Itoa (volume w))), w)
  else if String.eqb script "output muted of (get volume settings)"
  then (CmdOutput (line (GoStrconv.FormatBool (muted w))), w)
  else match strip_prefix "set volume output volume " script with
       | Some n =>
           match GoStrconv.Atoi n with
           | Some i =>
               (CmdOutput EmptyString,
                mkWorld (i / 5 * 5) (muted w) (pmset_batt w) (uid w) (machine_name w) (broker w))
           | None => (CmdError "exit status 1", w)
           end
       | None =>
           match strip_prefix "set volume output muted " script with
           | Some b =>
               match GoStrconv.ParseBool b with
               | Some m =>
                   (CmdOutput EmptyString,
                    mkWorld (volume w) m (pmset_batt w) (uid w) (machine_name w) (broker w))
               | None => (CmdError "exit status 1", w)
               end
           | None => (CmdOutput EmptyString, w)
           end
       end.

Definition exec (name : string) (arg : list string) (w : World) : cmd_result * World :=
  if String.eqb name osascript then
    match arg with
    | [_; script] => run_osascript script w
    | _ => (CmdError "exit status 1", w)
    end
  else if String.eqb name "/usr/bin/pmset" then (CmdOutput (pmset_batt w), w)
  else (CmdOutput EmptyString, w).

Definition host : Host World :=
  {| os_exec := exec;
     os_Getuid := uid;
     os_Hostname := fun w => CmdOutput (machine_name w);
     ReadFile := fun _ _ => CmdOutput "mqtt_ip: 10.0.0.5";
     yaml_Unmarshal := fun _ _ => inr (mkConfig "10.0.0.5" "1883" "u" "p");
     time_passes := fun _ w => w;
     mqtt_Connect := fun w => (broker w, w);
     mqtt_Publish := fun _ _ _ _ w => (broker w, w);
     mqtt_Subscribe := fun _ _ w => (broker w, w) |}.

Definition world : World :=
  {| volume := 30;
     muted := false;
     pmset_batt := "Now drawing from 'Battery Power'";
     uid := 501;
     machine_name := "testhost.local";
     broker := TokenDone |}.

Definition testhost : Vars := {| hostname := "testhost"; model := "testhost" |}.

End Fake.

(** ** Vocabulary of the statements *)

(** [getTopicPrefix()] as a function of the package variables. *)
Definition topic_prefix (v : Vars) : string := "homeassistant/" +:+ hostname v.

Definition state_of {W A} (r : outcome A * (Vars * W) * list event) : Vars * W :=
  snd (fst r).

(** A computation that leaves [hostname] and [model] as they are. *)
Definition keeps_vars {W A} (m : Go W A) : Prop :=
  forall s, vars_of (m s) = fst s.

(** The result [r] of a branch, run after the event [e]. *)
Definition after_event {W A} (e : event) (r : outcome A * (Vars * W) * list event)
  : outcome A * (Vars * W) * list event :=
  (result_of r, state_of r, e :: trace_of r).

(** What a publish of the volume state carries when the volume is read
    in state [s]: the decimal form of the value the host reports there,
    nothing when the read ends the process. *)
Definition fresh_volume {W} (H : Host W) (s : Vars * W) : list string :=
  match result_of (getCurrentVolume H s) with
  | Done v => [GoStrconv.Itoa v]
  | _ => []
  end.

(** A volume payload that is no decimal integer or lies outside 0..100. *)
Definition rejected_volume (payload : string) : Prop :=
  GoStrconv.Atoi payload = None
  \/ exists i, GoStrconv.Atoi payload = Some i /\ (i < 0 \/ 100 < i).

Definition mute_spellings : list string :=
  ["1"; "t"; "T"; "true"; "TRUE"; "True"; "0"; "f"; "F"; "false"; "FALSE"; "False"].

(** The command [commandShutdown] runs in world [w]. *)
Definition shutdown_call {W} (H : Host W) (w : W) : string * list string :=
  if os_Getuid H w =? 0 then ("shutdown", ["-h"; "now"])
  else (osascript, ["-e"; shutdown_script]).

(** What the State Publisher does for volume and mute, log lines and
    token waits left out. *)
Definition state_publisher_actions (v : Vars) (vol : Z) (m : bool) : list event :=
  [EvExec getVolume_call.1 getVolume_call.2;
   EvPublish (topic_prefix v +:+ "/state/volume") 0 false (GoStrconv.Itoa vol);
   EvExec getMute_call.1 getMute_call.2;
   EvPublish (topic_prefix v +:+ "/state/mute") 0 false (GoStrconv.FormatBool m)].

(** The topic of a discovery message, from the entity kind and the
    unique id the descriptor itself carries. *)
Definition config_topic (kind : string) (cfg : entity_config) : string :=
  "homeassistant/" +:+ kind +:+ "/" +:+ unique_id_of cfg +:+ "/config".

(** The entities of [main.go], each with its kind, in the order of the
    discovery pass. *)
Definition discovery_entities (v : Vars) : list (string * entity_config) :=
  let h := hostname v in
  let p := topic_prefix v in
  let d := device_of h (model v) in
  [("number", OfNumber (volumeNumberConfig h p d));
   ("switch", OfSwitch (switchConfig h p " Mute" "mute" "_mute" d));
   ("sensor", OfSensor (batteryConfig h p d));
   ("binary_sensor", OfBinarySensor (MainGo.powerAdapterConfig h p d));
   ("switch", OfSwitch (switchConfig h p " Sleep" "sleep" "_sleep" d));
   ("switch", OfSwitch (switchConfig h p " Display Sleep" "displaysleep" "_display_sleep" d));
   ("switch", OfSwitch (switchConfig h p " Shutdown" "shutdown" "_shutdown" d))].

Definition discovery_message (e : string * entity_config) : string * bool * string :=
  (config_topic e.1 e.2, true, Marshal.Marshal e.2).

(** An expected JSON text is written with an apostrophe where the text
    has a double quote; [json_text] puts the double quotes in. *)
Fixpoint json_text (s : string) : string :=
  match s with
  | EmptyString => EmptyString
  | String c rest =>
      String (if Ascii.eqb c "'" then quote_char else c) (json_text rest)
  end.

(** The payloads sent on [topic] among the publishes [l]. *)
Definition payloads_on (topic : string) (l : list (string * bool * string))
  : list string :=
  omap (fun p => if String.eqb p.1.1 topic then Some p.2 else None) l.

(** The payload the broker keeps for [topic] after the publishes [l],
    if one of them was retained on that topic. *)
Fixpoint last_retained (l : list (string * bool * string)) (topic : string)
  : option string :=
  match l with
  | [] => None
  | (t, r, payload) :: l' =>
      match last_retained l' topic with
      | Some p => Some p
      | None => if r && String.eqb t topic then Some payload else None
      end
  end.

(** [s] contains a non-empty run of digits immediately followed by a
    percent sign. *)
Definition has_digits_percent (s : string) : Prop :=
  exists pre ds post,
    ds <> EmptyString
    /\ string_forallb is_digit ds = true
    /\ s = pre +:+ ds +:+ "%" +:+ post.



(** The connects, token waits and sleeps of a trace. *)
Definition timing (tr : list event) : list event :=
  List.filter (fun e => match e with
                        | EvConnect | EvWaitTimeout _ | EvSleep _ => true
                        | _ => false
                        end) tr.

(** Go's zero values of the package variables, before [main] runs. *)
Definition zero_vars : Vars := {| hostname := EmptyString; model := EmptyString |}.


(** ** Further vocabulary *)

(** The five topics the callbacks compare a message's topic with. *)
Definition command_topics (v : Vars) : list string :=
  [topic_prefix v +:+ "/command/volume";
   topic_prefix v +:+ "/command/mute";
   topic_prefix v +:+ "/command/sleep";
   topic_prefix v +:+ "/command/displaysleep";
   topic_prefix v +:+ "/command/shutdown"].

(** The calls a trace makes on the broker session, in order. *)
Definition broker_calls (tr : list event) : list event :=
  List.filter (fun e => match e with
                        | EvPublish _ _ _ _ | EvSubscribe _ _ => true
                        | _ => false
                        end) tr.

(** The publish [publishConfig] makes for an entity. *)
Definition discovery_publish (e : string * entity_config) : event :=
  EvPublish (config_topic e.1 e.2) 0 true (Marshal.Marshal e.2).

(** A host on which every external command fails. *)
Definition no_commands : Host Fake.World :=
  {| os_exec := fun _ _ w => (CmdError "exit status 1", w);
     os_Getuid := Fake.uid;
     os_Hostname := fun _ => CmdError "hostname unavailable";
     ReadFile := fun _ _ => CmdOutput "mqtt_ip: 10.0.0.5";
     yaml_Unmarshal := fun _ _ => inr (mkConfig "10.0.0.5" "1883" "u" EmptyString);
     time_passes := fun _ w => w;
     mqtt_Connect := fun w => (Fake.broker w, w);
     mqtt_Publish := fun _ _ _ _ w => (Fake.broker w, w);
     mqtt_Subscribe := fun _ _ w => (Fake.broker w, w) |}.

(** A charging machine at 87 percent. *)
Definition charging : Fake.World :=
  {| Fake.volume := 30;
     Fake.muted := false;
     Fake.pmset_batt :=
       "Now drawing from 'AC Power' -InternalBattery-0 (id=4653155) 87%; charging";
     Fake.uid := 0;
     Fake.machine_name := "My Mac.local";
     Fake.broker := TokenError "not connected" |}.

(** The last byte of [s] is a digit. *)
Fixpoint ends_with_digit (s : string) : bool :=
  match s with
  | EmptyString => false
  | String c EmptyString => is_digit c
  | String _ r => ends_with_digit r
  end.

Definition no_percent (s : string) : bool :=
  string_forallb (fun c => negb (Ascii.eqb c "%")) s.

Definition no_newline (s : string) : bool :=
  string_forallb (fun c => negb (Ascii.eqb c newline)) s.

(** The command topic a descriptor announces, if it has one. *)
Definition command_topic_of (c : entity_config) : option string :=
  match c with
  | OfNumber n => Some (Number_CommandTopic n)
  | OfSwitch s => Some (Switch_CommandTopic s)
  | OfSensor _ | OfBinarySensor _ => None
  end.

(** A payload the callback accepts on each command topic. *)
Definition accepted_payload (suffix : string) : string :=
  if String.eqb suffix "/command/volume" then "50"
  else if String.eqb suffix "/command/mute" then "true"
  else if String.eqb suffix "/command/sleep" then "sleep"
  else if String.eqb suffix "/command/displaysleep" then "displaysleep"
  else "shutdown".

(** A host whose broker never answers: every token times out. *)
Definition offline : Host Fake.World :=
  {| os_exec := Fake.exec;
     os_Getuid := Fake.uid;
     os_Hostname := fun w => CmdOutput (Fake.machine_name w);
     ReadFile := fun _ _ => CmdOutput "mqtt_ip: 10.0.0.5";
     yaml_Unmarshal := fun _ _ => inr (mkConfig "10.0.0.5" "1883" "u" "p");
     time_passes := fun _ w => w;
     mqtt_Connect := fun w => (TokenTimedOut, w);
     mqtt_Publish := fun _ _ _ _ w => (TokenTimedOut, w);
     mqtt_Subscribe := fun _ _ w => (TokenTimedOut, w) |}.

(** *** The body of a JSON string, as a reader sees it

    A scanner for what stands between the two quotes: outside an
    escape a byte must be neither a control character nor a quote, and
    none of the three characters Go escapes for HTML; a backslash must
    start one of the escapes of JSON, four hexadecimal digits after
    [\u]. *)
Inductive scan := Plain | Escaped | Hex (k : nat).

Definition is_hex (c : ascii) : bool :=
  is_digit c || in_range 97 102 c || in_range 65 70 c.

Definition plain_byte (c : ascii) : bool :=
  (32 <=? byte_of c)
  && negb (Ascii.eqb c quote_char || Ascii.eqb c "&" || Ascii.eqb c "<" || Ascii.eqb c ">").

Definition short_escape (c : ascii) : bool :=
  Ascii.eqb c quote_char || Ascii.eqb c backslash || Ascii.eqb c "/"
  || Ascii.eqb c "b" || Ascii.eqb c "f" || Ascii.eqb c "n"
  || Ascii.eqb c "r" || Ascii.eqb c "t".

Fixpoint well_escaped (st : scan) (s : string) : bool :=
  match s with
  | EmptyString => match st with Plain => true | _ => false end
  | String c r =>
      match st with
      | Plain =>
          if Ascii.eqb c backslash then well_escaped Escaped r
          else plain_byte c && well_escaped Plain r
      | Escaped =>
          if Ascii.eqb c "u" then well_escaped (Hex 4) r
          else short_escape c && well_escaped Plain r
      | Hex (S k) =>
          is_hex c && well_escaped (match k with O => Plain | S _ => Hex k end) r
      | Hex O => false
      end
  end.

(** The next [k] bytes of [s], as far as it goes, are not ASCII. *)
Fixpoint high_bytes (k : nat) (s : string) : bool :=
  match k, s with
  | O, _ => true
  | S _, EmptyString => true
  | S k', String c r => negb (in_range 0 127 c) && high_bytes k' r
  end.

(** Where the encoder may stand in front of [s]: inside a rune only
    with bytes of that rune ahead. *)
Definition cursor_ok (at_ : GoJson.cursor) (s : string) : bool :=
  match at_ with
  | GoJson.Copy k => high_bytes k s
  | _ => true
  end.

(** What a publish of the mute state carries when the flag is read in
    state [s]. *)
Definition fresh_mute {W} (H : Host W) (s : Vars * W) : list string :=
  match result_of (getMuteStatus H s) with
  | Done m => [GoStrconv.FormatBool m]
  | _ => []
  end.

(** A host whose audio device cannot be muted: the command succeeds
    and the flag stays off. *)
Definition never_muted : Host Fake.World :=
  {| os_exec := fun name arg w =>
       match Fake.exec name arg w with
       | (r, w') =>
           (r, Fake.mkWorld (Fake.volume w') false (Fake.pmset_batt w') (Fake.uid w')
                 (Fake.machine_name w') (Fake.broker w'))
       end;
     os_Getuid := Fake.uid;
     os_Hostname := fun w => CmdOutput (Fake.machine_name w);
     ReadFile := fun _ _ => CmdOutput "mqtt_ip: 10.0.0.5";
     yaml_Unmarshal := fun _ _ => inr (mkConfig "10.0.0.5" "1883" "u" "p");
     time_passes := fun _ w => w;
     mqtt_Connect := fun w => (Fake.broker w, w);
     mqtt_Publish := fun _ _ _ _ w => (Fake.broker w, w);
     mqtt_Subscribe := fun _ _ w => (Fake.broker w, w) |}.

(** * Proofs *)

#[local] Arguments String.append : simpl never.

Lemma append_assoc (a b c : string) : (a +:+ b) +:+ c = a +:+ (b +:+ c).
Proof.
  induction a as [| x a IH]; [reflexivity |].
  change (String x ((a +:+ b) +:+ c) = String x (a +:+ (b +:+ c))). f_equal. exact IH.
Qed.

Lemma eqb_append_l (p a b : string) :
  String.eqb (p +:+ a) (p +:+ b) = String.eqb a b.
Proof.
  induction p as [|c p IH]; simpl; [reflexivity|].
  rewrite Ascii.eqb_refl. exact IH.
Qed.

Ltac go_unfold :=
  repeat (progress (unfold mbind, mret, Go_bind, Go_ret, go_bind, go_ret,
                      getTopicPrefix, read_hostname, read_model,
                      Println, Printf, emit, Fatal, panic,
                      result_of, vars_of, world_of, trace_of, state_of in *;
                    cbn [fst snd app] in *)).

Section Monad_laws.

Context {W : Type}.

Lemma bind_run {A B} (m : Go W A) (k : A -> Go W B) (s : Vars * W) :
  (m ≫= k) s =
  match result_of (m s) with
  | Done a =>
      (result_of (k a (state_of (m s))), state_of (k a (state_of (m s))),
       trace_of (m s) ++ trace_of (k a (state_of (m s))))
  | Exit c => (Exit c, state_of (m s), trace_of (m s))
  | Panic => (Panic, state_of (m s), trace_of (m s))
  end.
Proof.
  go_unfold. destruct (m s) as [[[a|c|] s1] t1]; cbn; try reflexivity.
  destruct (k a s1) as [[o2 s2] t2]; reflexivity.
Qed.

Lemma keeps_ret {A} (a : A) : keeps_vars (mret a : Go W A).
Proof. intros s; reflexivity. Qed.

Lemma keeps_bind {A B} (m : Go W A) (k : A -> Go W B) :
  keeps_vars m -> (forall a, keeps_vars (k a)) -> keeps_vars (m ≫= k).
Proof.
  intros Hm Hk s. rewrite bind_run. specialize (Hm s). unfold vars_of, state_of, result_of in *.
  destruct (m s) as [[[a|c|] s1] t1]; cbn in *; try assumption.
  rewrite <- Hm. apply (Hk a s1).
Qed.

Lemma keeps_emit e : keeps_vars (emit e : Go W unit).
Proof. intros s; reflexivity. Qed.

Lemma keeps_Fatal {A} args : keeps_vars (Fatal args : Go W A).
Proof. intros s; reflexivity. Qed.

Lemma keeps_panic {A} : keeps_vars (panic : Go W A).
Proof. intros s; reflexivity. Qed.

Lemma keeps_read_hostname : keeps_vars (read_hostname : Go W string).
Proof. intros s; reflexivity. Qed.

Lemma keeps_read_model : keeps_vars (read_model : Go W string).
Proof. intros s; reflexivity. Qed.

Variable H : Host W.

Lemma keeps_Sleep d : keeps_vars (Sleep H d).
Proof. intros s; reflexivity. Qed.

Lemma keeps_Output n a : keeps_vars (Output H n a).
Proof. intros s. unfold Output, vars_of. destruct (os_exec H n a s.2); reflexivity. Qed.

Lemma keeps_Getuid : keeps_vars (Getuid H).
Proof. intros s; reflexivity. Qed.

Lemma keeps_Publish t q r p : keeps_vars (client_Publish H t q r p).
Proof. intros s. unfold client_Publish, vars_of. destruct (mqtt_Publish H t q r p s.2); reflexivity. Qed.

Lemma keeps_Subscribe t q : keeps_vars (client_Subscribe H t q).
Proof. intros s. unfold client_Subscribe, vars_of. destruct (mqtt_Subscribe H t q s.2); reflexivity. Qed.

Lemma keeps_Connect : keeps_vars (client_Connect H).
Proof. intros s. unfold client_Connect, vars_of. destruct (mqtt_Connect H s.2); reflexivity. Qed.

Lemma keeps_WaitTimeout t d : keeps_vars (WaitTimeout t d : Go W bool).
Proof. intros s; reflexivity. Qed.

End Monad_laws.

Create HintDb keeps.

#[global] Hint Resolve keeps_ret keeps_emit keeps_Fatal keeps_panic keeps_read_hostname
  keeps_read_model
  keeps_Sleep keeps_Output keeps_Getuid keeps_Publish keeps_Subscribe keeps_Connect
  keeps_WaitTimeout : keeps.

(** Every function of the program but [main] leaves the package
    variables as they are: a bind keeps them when its parts do, and the
    branches of a [match] or [if] are tried one by one. *)
Ltac keeps :=
  repeat first
    [ solve [auto with keeps]
    | apply keeps_bind; [| intros ?]
    | match goal with
      | |- keeps_vars (match ?x with _ => _ end) => destruct x
      | |- keeps_vars (if ?x then _ else _) => destruct x
      end
    | progress (cbv zeta) ].

Section Keeps.

Context {W : Type} (H : Host W).

Lemma keeps_getTopicPrefix : keeps_vars (getTopicPrefix : Go W string).
Proof. unfold getTopicPrefix. keeps. Qed.

Lemma keeps_log_token t a b : keeps_vars (log_token t a b : Go W unit).
Proof. unfold log_token, Printf. keeps. Qed.

Lemma keeps_getCommandOutput n a : keeps_vars (getCommandOutput H n a).
Proof. unfold getCommandOutput. keeps. Qed.

Lemma keeps_runCommand n a : keeps_vars (runCommand H n a).
Proof. unfold runCommand. keeps. Qed.

Hint Resolve keeps_getTopicPrefix keeps_log_token keeps_getCommandOutput
  keeps_runCommand : keeps.

Lemma keeps_updateVolume : keeps_vars (updateVolume H).
Proof. unfold updateVolume, getCurrentVolume. keeps. Qed.

Lemma keeps_updateMute : keeps_vars (updateMute H).
Proof. unfold updateMute, getMuteStatus. keeps. Qed.

Lemma keeps_updateBattery : keeps_vars (updateBattery H).
Proof. unfold updateBattery, getBatteryInfo. keeps. Qed.

Lemma keeps_setVolume i : keeps_vars (setVolume H i).
Proof. unfold setVolume. keeps. Qed.

Lemma keeps_setMute b : keeps_vars (setMute H b).
Proof. unfold setMute. keeps. Qed.

Lemma keeps_commandSleep : keeps_vars (commandSleep H).
Proof. unfold commandSleep. keeps. Qed.

Lemma keeps_commandDisplaySleep : keeps_vars (commandDisplaySleep H).
Proof. unfold commandDisplaySleep. keeps. Qed.

Lemma keeps_commandShutdown : keeps_vars (commandShutdown H).
Proof. unfold commandShutdown. keeps. Qed.

Lemma keeps_publishConfig c o cfg : keeps_vars (publishConfig H c o cfg).
Proof. unfold publishConfig, Printf. keeps. Qed.

Lemma keeps_reconnect_iteration : keeps_vars (reconnect_iteration H).
Proof. unfold reconnect_iteration, Println, Printf. keeps. Qed.

Lemma keeps_connectLostHandler err : keeps_vars (connectLostHandler err : Go W unit).
Proof. unfold connectLostHandler, Printf. keeps. Qed.

End Keeps.

#[global] Hint Resolve keeps_getTopicPrefix keeps_log_token keeps_getCommandOutput
  keeps_runCommand keeps_updateVolume keeps_updateMute keeps_updateBattery
  keeps_setVolume keeps_setMute keeps_commandSleep keeps_commandDisplaySleep
  keeps_commandShutdown keeps_publishConfig keeps_reconnect_iteration
  keeps_connectLostHandler : keeps.

Section Keeps_handlers.

Context {W : Type} (H : Host W).

Lemma keeps_acknowledge a : keeps_vars (MainGo.acknowledge H a).
Proof. unfold MainGo.acknowledge. keeps. Qed.

Hint Resolve keeps_acknowledge : keeps.

Lemma keeps_main_on_volume p : keeps_vars (MainGo.on_volume H p).
Proof. unfold MainGo.on_volume, Println. keeps. Qed.

Lemma keeps_main_on_mute p : keeps_vars (MainGo.on_mute H p).
Proof. unfold MainGo.on_mute, Println. keeps. Qed.

Lemma keeps_main_on_sleep p : keeps_vars (MainGo.on_sleep H p).
Proof. unfold MainGo.on_sleep. keeps. Qed.

Lemma keeps_main_on_displaysleep p : keeps_vars (MainGo.on_displaysleep H p).
Proof. unfold MainGo.on_displaysleep. keeps. Qed.

Lemma keeps_main_on_shutdown p : keeps_vars (MainGo.on_shutdown H p).
Proof. unfold MainGo.on_shutdown. keeps. Qed.

Hint Resolve keeps_main_on_volume keeps_main_on_mute keeps_main_on_sleep
  keeps_main_on_displaysleep keeps_main_on_shutdown : keeps.

Lemma keeps_if_topic t sfx body :
  keeps_vars body -> keeps_vars (MainGo.if_topic t sfx body : Go W unit).
Proof. intros Hb. unfold MainGo.if_topic. keeps. Qed.

Hint Resolve keeps_if_topic : keeps.

Lemma keeps_main_messageHandler t p : keeps_vars (MainGo.messageHandler H t p).
Proof. unfold MainGo.messageHandler. keeps. Qed.

Lemma keeps_main_discovery : keeps_vars (MainGo.publishHADiscoveryConfig H).
Proof. unfold MainGo.publishHADiscoveryConfig. keeps. Qed.

Lemma keeps_main_connectHandler : keeps_vars (MainGo.connectHandler H).
Proof.
  pose proof keeps_main_discovery.
  unfold MainGo.connectHandler, MainGo.listen, Println, Printf. keeps.
Qed.

Lemma keeps_part_on_volume p : keeps_vars (Part000.on_volume H p).
Proof. unfold Part000.on_volume, Println. keeps. Qed.

Lemma keeps_part_on_mute p : keeps_vars (Part000.on_mute H p).
Proof. unfold Part000.on_mute, Println. keeps. Qed.

Lemma keeps_part_messageHandler t p : keeps_vars (Part000.messageHandler H t p).
Proof.
  pose proof keeps_part_on_volume. pose proof keeps_part_on_mute.
  unfold Part000.messageHandler, Part000.on_sleep, Part000.on_displaysleep,
    Part000.on_shutdown.
  keeps.
Qed.

Lemma keeps_volumeTick : keeps_vars (volumeTick H).
Proof. unfold volumeTick. keeps. Qed.

Lemma keeps_batteryTick : keeps_vars (batteryTick H).
Proof. unfold batteryTick. keeps. Qed.

End Keeps_handlers.

#[global] Hint Resolve keeps_acknowledge keeps_main_on_volume keeps_main_on_mute
  keeps_main_on_sleep keeps_main_on_displaysleep keeps_main_on_shutdown keeps_if_topic
  keeps_main_messageHandler keeps_main_discovery keeps_main_connectHandler
  keeps_part_on_volume keeps_part_on_mute keeps_part_messageHandler : keeps.

(** ** Dispatch by topic *)

Section Dispatch.

Context {W : Type} (H : Host W).

Lemma if_topic_hit (v : Vars) (w : W) suffix body :
  MainGo.if_topic (topic_prefix v +:+ suffix) suffix body (v, w) = body (v, w).
Proof.
  unfold MainGo.if_topic, topic_prefix. go_unfold.
  rewrite String.eqb_refl. destruct (body (v, w)) as [[o s] t]. reflexivity.
Qed.

Lemma if_topic_miss (v : Vars) (w : W) suffix suffix' body :
  String.eqb suffix suffix' = false ->
  MainGo.if_topic (topic_prefix v +:+ suffix) suffix' body (v, w) = (Done tt, (v, w), []).
Proof.
  intros Hne. unfold MainGo.if_topic, topic_prefix. go_unfold.
  rewrite eqb_append_l, Hne. reflexivity.
Qed.

(** Running [m] and then something that does nothing is running [m],
    when [m] keeps the variables the later topic tests read. *)
Lemma bind_noop (m : Go W unit) (k : Go W unit) (v : Vars) (w : W) :
  keeps_vars m ->
  (forall w', k (v, w') = (Done tt, (v, w'), [])) ->
  (m;; k) (v, w) = m (v, w).
Proof.
  intros Hm Hk. rewrite bind_run. specialize (Hm (v, w)).
  unfold vars_of, result_of, state_of, trace_of in *.
  destruct (m (v, w)) as [[[[]|c|] [v' w']] t]; cbn in *; try reflexivity.
  subst v'. rewrite Hk. cbn. rewrite app_nil_r. reflexivity.
Qed.

Lemma noop_bind (m k : Go W unit) (s : Vars * W) :
  m s = (Done tt, s, []) -> (m;; k) s = k s.
Proof.
  intros Hm. rewrite bind_run, Hm. unfold result_of, state_of, trace_of. cbn.
  destruct (k s) as [[o s'] t]. reflexivity.
Qed.

Ltac dispatch :=
  repeat first
    [ rewrite if_topic_hit
    | rewrite noop_bind by (apply if_topic_miss; reflexivity)
    | rewrite if_topic_miss by reflexivity
    | rewrite bind_noop;
      [ | solve [auto with keeps]
        | intros ?; repeat (rewrite noop_bind by (apply if_topic_miss; reflexivity));
          rewrite ?if_topic_miss by reflexivity; reflexivity ] ].

Lemma main_volume_topic v w payload :
  MainGo.messageHandler H (topic_prefix v +:+ "/command/volume") payload (v, w)
  = MainGo.on_volume H payload (v, w).
Proof. unfold MainGo.messageHandler. dispatch. reflexivity. Qed.

Lemma main_mute_topic v w payload :
  MainGo.messageHandler H (topic_prefix v +:+ "/command/mute") payload (v, w)
  = MainGo.on_mute H payload (v, w).
Proof. unfold MainGo.messageHandler. dispatch. reflexivity. Qed.

Lemma main_sleep_topic v w payload :
  MainGo.messageHandler H (topic_prefix v +:+ "/command/sleep") payload (v, w)
  = MainGo.on_sleep H payload (v, w).
Proof. unfold MainGo.messageHandler. dispatch. reflexivity. Qed.

Lemma main_displaysleep_topic v w payload :
  MainGo.messageHandler H (topic_prefix v +:+ "/command/displaysleep") payload (v, w)
  = MainGo.on_displaysleep H payload (v, w).
Proof. unfold MainGo.messageHandler. dispatch. reflexivity. Qed.

Lemma main_shutdown_topic v w payload :
  MainGo.messageHandler H (topic_prefix v +:+ "/command/shutdown") payload (v, w)
  = MainGo.on_shutdown H payload (v, w).
Proof. unfold MainGo.messageHandler. dispatch. reflexivity. Qed.

Ltac part_dispatch :=
  unfold Part000.messageHandler, topic_prefix, after_event; go_unfold;
  rewrite ?eqb_append_l, ?String.eqb_refl; cbn [String.eqb Ascii.eqb Bool.eqb];
  match goal with |- context [?f (?v, ?w)] =>
    match type of f with Go _ _ => destruct (f (v, w)) as [[[[]|?|] ?] ?] end end;
  reflexivity.

Lemma part_volume_topic v w payload :
  Part000.messageHandler H (topic_prefix v +:+ "/command/volume") payload (v, w)
  = after_event (Part000.received (topic_prefix v +:+ "/command/volume") payload)
      (Part000.on_volume H payload (v, w)).
Proof. part_dispatch. Qed.

Lemma part_mute_topic v w payload :
  Part000.messageHandler H (topic_prefix v +:+ "/command/mute") payload (v, w)
  = after_event (Part000.received (topic_prefix v +:+ "/command/mute") payload)
      (Part000.on_mute H payload (v, w)).
Proof. part_dispatch. Qed.

Lemma part_sleep_topic v w payload :
  Part000.messageHandler H (topic_prefix v +:+ "/command/sleep") payload (v, w)
  = after_event (Part000.received (topic_prefix v +:+ "/command/sleep") payload)
      (Part000.on_sleep H payload (v, w)).
Proof. part_dispatch. Qed.

Lemma part_displaysleep_topic v w payload :
  Part000.messageHandler H (topic_prefix v +:+ "/command/displaysleep") payload (v, w)
  = after_event (Part000.received (topic_prefix v +:+ "/command/displaysleep") payload)
      (Part000.on_displaysleep H payload (v, w)).
Proof. part_dispatch. Qed.

Lemma part_shutdown_topic v w payload :
  Part000.messageHandler H (topic_prefix v +:+ "/command/shutdown") payload (v, w)
  = after_event (Part000.received (topic_prefix v +:+ "/command/shutdown") payload)
      (Part000.on_shutdown H payload (v, w)).
Proof. part_dispatch. Qed.

End Dispatch.

(** ** Symbolic runs of the handlers *)

(** Unfolds the program down to the calls into the host and splits on
    what the host answers. *)
Ltac host_split :=
  match goal with
  | |- context [os_exec ?H ?n ?a ?w] =>
      destruct (os_exec H n a w) as [[?out|?err] ?w] eqn:?
  | |- context [mqtt_Publish ?H ?t ?q ?r ?p ?w] =>
      destruct (mqtt_Publish H t q r p w) as [[|?e|] ?w] eqn:?
  | |- context [mqtt_Subscribe ?H ?t ?q ?w] =>
      destruct (mqtt_Subscribe H t q w) as [[|?e|] ?w] eqn:?
  | |- context [mqtt_Connect ?H ?w] =>
      destruct (mqtt_Connect H w) as [[|?e|] ?w] eqn:?
  | |- context [match GoStrconv.Atoi ?x with _ => _ end] =>
      destruct (GoStrconv.Atoi x) eqn:?
  | |- context [match GoStrconv.ParseBool ?x with _ => _ end] =>
      destruct (GoStrconv.ParseBool x) eqn:?
  end.

Ltac go_exec :=
  repeat (progress
    (unfold MainGo.on_volume, MainGo.on_mute, MainGo.on_sleep, MainGo.on_displaysleep,
       MainGo.on_shutdown, MainGo.acknowledge,
       Part000.on_volume, Part000.on_mute, Part000.on_sleep, Part000.on_displaysleep,
       Part000.on_shutdown,
       setVolume, setMute, commandSleep, commandDisplaySleep, commandShutdown,
       updateVolume, updateMute, updateBattery, getBatteryInfo, getCurrentVolume, getMuteStatus,
       getCommandOutput, runCommand, log_token, token_Error,
       Output, Sleep, Getuid, client_Publish, client_Subscribe, client_Connect,
       WaitTimeout in *;
     go_unfold;
     try host_split;
     cbn [negb andb orb] in *)).

Section Commands.

Context {W : Type} (H : Host W).

Lemma ParseBool_spellings payload :
  In payload mute_spellings <-> is_Some (GoStrconv.ParseBool payload).
Proof.
  unfold GoStrconv.ParseBool, mute_spellings. split.
  - intros Hin. cbn [In] in Hin.
    repeat (destruct Hin as [<- | Hin]; [cbn; eauto |]). destruct Hin.
  - intros [b Hb].
    destruct (existsb _ _) eqn:E1 in Hb.
    + apply existsb_exists in E1 as (x & Hx & Heq). apply String.eqb_eq in Heq. subst x.
      cbn [In] in *. tauto.
    + destruct (existsb _ _) eqn:E2 in Hb; [| discriminate].
      apply existsb_exists in E2 as (x & Hx & Heq). apply String.eqb_eq in Heq. subst x.
      cbn [In] in *. tauto.
Qed.

Lemma trace_bind {A B} (m : Go W A) (k : A -> Go W B) (s : Vars * W) :
  trace_of ((m ≫= k) s) =
  trace_of (m s) ++ match result_of (m s) with
                    | Done a => trace_of (k a (state_of (m s)))
                    | _ => []
                    end.
Proof.
  rewrite bind_run. destruct (result_of (m s)); cbn; rewrite ?app_nil_r; reflexivity.
Qed.

Lemma runCommand_run name arg v w :
  runCommand H name arg (v, w) =
  match (os_exec H name arg w).1 with
  | CmdOutput _ => (Done tt, (v, (os_exec H name arg w).2), [EvExec name arg])
  | CmdError err =>
      (Exit 1, (v, (os_exec H name arg w).2),
       [EvExec name arg; EvFatal [LError (ErrExternal err)]])
  end.
Proof.
  unfold runCommand, Output. go_unfold.
  destruct (os_exec H name arg w) as [[out|err] w1]; reflexivity.
Qed.

(** C2. A payload on the volume command topic that is no decimal
    integer, or an integer outside 0..100, changes nothing and publishes
    nothing: the handler returns in the state it started in, and its
    whole trace is the log line of the rejection (after the line that
    logs the message, in the second variant). *)
Theorem invalid_volume_is_only_logged v w payload :
  rejected_volume payload ->
  MainGo.messageHandler H (topic_prefix v +:+ "/command/volume") payload (v, w)
  = (Done tt, (v, w), [EvPrintln [LString "Incorrect value"]])
  /\ Part000.messageHandler H (topic_prefix v +:+ "/command/volume") payload (v, w)
     = (Done tt, (v, w),
        [Part000.received (topic_prefix v +:+ "/command/volume") payload;
         EvPrintln [LString "Incorrect volume value"]]).
Proof.
  intros Hrej. rewrite main_volume_topic, part_volume_topic.
  unfold MainGo.on_volume, Part000.on_volume, after_event.
  destruct Hrej as [-> | (i & -> & Hi)].
  - split; reflexivity.
  - replace ((0 <=? i) && (i <=? 100)) with false
      by (symmetry; apply andb_false_iff; lia).
    split; reflexivity.
Qed.

(** C4, amended. A payload on the mute command topic is accepted
    exactly when [strconv.ParseBool] accepts it, that is when it is one
    of 1, t, T, true, TRUE, True, 0, f, F, false, FALSE, False; the
    first host command is then the mutator with the parsed value.
    Every other payload is rejected: the state is unchanged and the
    trace is the log line of the rejection, so [setMute] is not
    called. *)
Theorem mute_payload_accepted_as_ParseBool v w payload :
  (In payload mute_spellings <-> is_Some (GoStrconv.ParseBool payload))
  /\ match GoStrconv.ParseBool payload with
     | Some b =>
         (exists rest,
            execs (trace_of (MainGo.messageHandler H (topic_prefix v +:+ "/command/mute")
                               payload (v, w))) = setMute_call b :: rest)
         /\ (exists rest,
            execs (trace_of (Part000.messageHandler H (topic_prefix v +:+ "/command/mute")
                               payload (v, w))) = setMute_call b :: rest)
     | None =>
         MainGo.messageHandler H (topic_prefix v +:+ "/command/mute") payload (v, w)
         = (Done tt, (v, w), [EvPrintln [LString "Incorrect value"]])
         /\ Part000.messageHandler H (topic_prefix v +:+ "/command/mute") payload (v, w)
            = (Done tt, (v, w),
               [Part000.received (topic_prefix v +:+ "/command/mute") payload;
                EvPrintln [LString "Incorrect mute value"]])
     end.
Proof.
  split; [apply ParseBool_spellings |].
  rewrite main_mute_topic, part_mute_topic.
  unfold MainGo.on_mute, Part000.on_mute.
  destruct (GoStrconv.ParseBool payload) as [b|]; [| split; reflexivity].
  unfold after_event, setMute, setMute_call.
  split; rewrite trace_bind, runCommand_run; unfold trace_of;
    destruct (os_exec H _ _ w) as [[out|err] w1]; cbn; eauto.
Qed.
End Commands.

Section Power.

Context {W : Type} (H : Host W).

Lemma acknowledge_execs action s :
  result_of (MainGo.acknowledge H action s) = Done tt
  /\ execs (trace_of (MainGo.acknowledge H action s)) = [].
Proof.
  destruct s as [v w]. go_exec; split; reflexivity.
Qed.

Lemma runCommand_execs name arg s :
  execs (trace_of (runCommand H name arg s)) = [(name, arg)].
Proof.
  destruct s as [v w]. rewrite runCommand_run.
  destruct (os_exec H name arg w).1; reflexivity.
Qed.

Lemma execs_app a b : execs (a ++ b) = execs a ++ execs b.
Proof. apply omap_app. Qed.

Lemma main_power_execs action (cmd : Go W unit) call s :
  (forall s', execs (trace_of (cmd s')) = [call]) ->
  execs (trace_of ((MainGo.acknowledge H action;; cmd) s)) = [call].
Proof.
  intros Hcmd. rewrite trace_bind, execs_app.
  destruct (acknowledge_execs action s) as (-> & ->). apply Hcmd.
Qed.

Lemma commandShutdown_execs s :
  execs (trace_of (commandShutdown H s)) = [shutdown_call H s.2].
Proof.
  unfold commandShutdown, shutdown_call. rewrite trace_bind.
  unfold Getuid at 1 2 3. cbn [result_of state_of trace_of fst snd app].
  destruct (os_Getuid H s.2 =? 0); apply runCommand_execs.
Qed.

(** C5. On the sleep, display-sleep and shutdown topics the host
    action runs exactly when the payload is the literal of the topic,
    and it is then the only host command of the handler.  Any other
    payload leaves the state as it is with no event at all in
    [main.go], and with nothing but the line that logs every message in
    the second variant. *)
Theorem power_commands_need_exact_payload v w payload :
  let main topic := MainGo.messageHandler H topic payload (v, w) in
  let part topic := Part000.messageHandler H topic payload (v, w) in
  let only_received topic := (Done tt, (v, w), [Part000.received topic payload]) in
  (if String.eqb payload "sleep"
   then execs (trace_of (main (topic_prefix v +:+ "/command/sleep")))
        = [("pmset", ["sleepnow"])]
        /\ execs (trace_of (part (topic_prefix v +:+ "/command/sleep")))
           = [("pmset", ["sleepnow"])]
   else main (topic_prefix v +:+ "/command/sleep") = (Done tt, (v, w), [])
        /\ part (topic_prefix v +:+ "/command/sleep")
           = only_received (topic_prefix v +:+ "/command/sleep"))
  /\ (if String.eqb payload "displaysleep"
      then execs (trace_of (main (topic_prefix v +:+ "/command/displaysleep")))
           = [("pmset", ["displaysleepnow"])]
           /\ execs (trace_of (part (topic_prefix v +:+ "/command/displaysleep")))
              = [("pmset", ["displaysleepnow"])]
      else main (topic_prefix v +:+ "/command/displaysleep") = (Done tt, (v, w), [])
           /\ part (topic_prefix v +:+ "/command/displaysleep")
              = only_received (topic_prefix v +:+ "/command/displaysleep"))
  /\ (if String.eqb payload "shutdown"
      then execs (trace_of (main (topic_prefix v +:+ "/command/shutdown")))
           = [shutdown_call H (world_of (MainGo.acknowledge H "shutdown" (v, w)))]
           /\ execs (trace_of (part (topic_prefix v +:+ "/command/shutdown")))
              = [shutdown_call H w]
      else main (topic_prefix v +:+ "/command/shutdown") = (Done tt, (v, w), [])
           /\ part (topic_prefix v +:+ "/command/shutdown")
              = only_received (topic_prefix v +:+ "/command/shutdown")).
Proof.
  cbv beta zeta.
  rewrite main_sleep_topic, main_displaysleep_topic, main_shutdown_topic,
    part_sleep_topic, part_displaysleep_topic, part_shutdown_topic.
  unfold MainGo.on_sleep, MainGo.on_displaysleep, MainGo.on_shutdown,
    Part000.on_sleep, Part000.on_displaysleep, Part000.on_shutdown.
  repeat split.
  - destruct (String.eqb payload "sleep"); [| split; reflexivity].
    split; [apply main_power_execs; intros; apply runCommand_execs |].
    apply (runCommand_execs _ _ (v, w)).
  - destruct (String.eqb payload "displaysleep"); [| split; reflexivity].
    split; [apply main_power_execs; intros; apply runCommand_execs |].
    apply (runCommand_execs _ _ (v, w)).
  - destruct (String.eqb payload "shutdown"); [| split; reflexivity].
    split; [| apply (commandShutdown_execs (v, w))].
    rewrite trace_bind, execs_app.
    destruct (acknowledge_execs "shutdown" (v, w)) as (-> & ->).
    rewrite commandShutdown_execs. reflexivity.
Qed.

End Power.

Section Volume.

Context {W : Type} (H : Host W).

Lemma published_on_app topic a b :
  published_on topic (a ++ b) = published_on topic a ++ published_on topic b.
Proof. apply omap_app. Qed.

Ltac topics :=
  unfold published_on, topic_prefix; cbn [omap list_omap];
  rewrite ?String.eqb_refl, ?eqb_append_l; cbn [String.eqb Ascii.eqb Bool.eqb omap list_omap].

Lemma updateVolume_published v w :
  published_on (topic_prefix v +:+ "/state/volume") (trace_of (updateVolume H (v, w)))
  = fresh_volume H (v, w).
Proof. unfold fresh_volume. go_exec; topics; reflexivity. Qed.

Lemma updateMute_published v w :
  published_on (topic_prefix v +:+ "/state/volume") (trace_of (updateMute H (v, w))) = [].
Proof. go_exec; topics; reflexivity. Qed.

Lemma state_publisher_published v w :
  published_on (topic_prefix v +:+ "/state/volume")
    (trace_of ((updateVolume H;; updateMute H) (v, w)))
  = fresh_volume H (v, w).
Proof.
  rewrite trace_bind, published_on_app, updateVolume_published.
  pose proof (keeps_updateVolume H (v, w)) as Hk. unfold vars_of, state_of in *.
  destruct (updateVolume H (v, w)) as [[[[]|c|] [v' w']] t];
    cbn [fst snd result_of state_of] in *; subst;
    rewrite ?updateMute_published; apply app_nil_r.
Qed.

(** C1. A valid volume command (the payload parses to an integer in
    0..100) whose mutator succeeds publishes on the volume state topic
    what a fresh read of the host gives at publish time, not the
    integer of the payload: in [main.go] the read is made in the world
    the mutator left, in the second variant in that world one second
    later; when that read ends the process nothing is published. *)
Theorem volume_state_is_read_back v w payload i out w1 :
  GoStrconv.Atoi payload = Some i ->
  0 <= i <= 100 ->
  os_exec H (setVolume_call i).1 (setVolume_call i).2 w = (CmdOutput out, w1) ->
  published_on (topic_prefix v +:+ "/state/volume")
    (trace_of (MainGo.messageHandler H (topic_prefix v +:+ "/command/volume") payload (v, w)))
  = fresh_volume H (v, w1)
  /\ published_on (topic_prefix v +:+ "/state/volume")
       (trace_of (Part000.messageHandler H (topic_prefix v +:+ "/command/volume") payload (v, w)))
     = fresh_volume H (v, time_passes H (1 * Second) w1).
Proof.
  intros Hi Hr Hset. rewrite main_volume_topic, part_volume_topic.
  unfold MainGo.on_volume, Part000.on_volume, after_event. rewrite Hi.
  replace ((0 <=? i) && (i <=? 100)) with true by (symmetry; apply andb_true_iff; lia).
  unfold setVolume. cbn [setVolume_call fst snd] in Hset.
  split.
  - rewrite trace_bind, runCommand_run, Hset. cbn [fst snd result_of state_of trace_of].
    rewrite published_on_app. apply state_publisher_published.
  - cbn [trace_of snd]. rewrite trace_bind, runCommand_run, Hset.
    cbn [fst snd result_of state_of trace_of]. rewrite trace_bind.
    unfold Sleep at 1 2 3. cbn [fst snd result_of state_of trace_of].
    unfold Part000.received. unfold published_on at 1.
    cbn [omap list_omap app]. apply state_publisher_published.
Qed.

Lemma state_publisher_order v w :
  result_of ((updateVolume H;; updateMute H) (v, w)) = Done tt ->
  exists vol m,
    actions (trace_of ((updateVolume H;; updateMute H) (v, w)))
    = state_publisher_actions v vol m.
Proof.
  unfold state_publisher_actions, getVolume_call, getMute_call.
  go_exec; intros; try discriminate; cbn; eauto.
Qed.

End Volume.

Section Settle.

Context {W : Type} (H : Host W).

Lemma actions_app a b : actions (a ++ b) = actions a ++ actions b.
Proof. apply List.filter_app. Qed.

(** A mutator followed by [rest]: when the whole run ends well the
    mutator's command succeeded, and [rest] ran in the world it left. *)
Lemma after_mutator name arg (rest : Go W unit) v w :
  result_of ((runCommand H name arg;; rest) (v, w)) = Done tt ->
  result_of (rest (v, (os_exec H name arg w).2)) = Done tt
  /\ trace_of ((runCommand H name arg;; rest) (v, w))
     = EvExec name arg :: trace_of (rest (v, (os_exec H name arg w).2)).
Proof.
  rewrite trace_bind, bind_run, runCommand_run.
  destruct (os_exec H name arg w) as [[out|err] w1];
    cbn [fst snd result_of state_of trace_of]; [| discriminate].
  intros Hres. split; [exact Hres | reflexivity].
Qed.

Lemma after_settle d (rest : Go W unit) v w :
  result_of ((Sleep H d;; rest) (v, w)) = Done tt ->
  result_of (rest (v, time_passes H d w)) = Done tt
  /\ trace_of ((Sleep H d;; rest) (v, w))
     = EvSleep d :: trace_of (rest (v, time_passes H d w)).
Proof.
  rewrite trace_bind, bind_run. unfold Sleep at 1 2 3 4 5 6.
  cbn [fst snd result_of state_of trace_of]. intros Hres. split; [exact Hres | reflexivity].
Qed.

(** X1. In the second variant a volume or mute command that runs to
    its end calls the mutator, sleeps one second, and only then runs
    the State Publisher for volume and for mute, in that order. *)
Lemma part_settles_before_publishing v w payload :
  (forall i, GoStrconv.Atoi payload = Some i -> 0 <= i <= 100 ->
     result_of (Part000.messageHandler H (topic_prefix v +:+ "/command/volume") payload (v, w))
     = Done tt ->
     exists vol m,
       actions (trace_of (Part000.messageHandler H (topic_prefix v +:+ "/command/volume")
                            payload (v, w)))
       = EvExec (setVolume_call i).1 (setVolume_call i).2
           :: EvSleep (1 * Second) :: state_publisher_actions v vol m)
  /\ (forall b, GoStrconv.ParseBool payload = Some b ->
     result_of (Part000.messageHandler H (topic_prefix v +:+ "/command/mute") payload (v, w))
     = Done tt ->
     exists vol m,
       actions (trace_of (Part000.messageHandler H (topic_prefix v +:+ "/command/mute")
                            payload (v, w)))
       = EvExec (setMute_call b).1 (setMute_call b).2
           :: EvSleep (1 * Second) :: state_publisher_actions v vol m).
Proof.
  rewrite part_volume_topic, part_mute_topic.
  unfold Part000.on_volume, Part000.on_mute, after_event, setVolume, setMute.
  cbn [result_of trace_of fst snd setVolume_call setMute_call].
  split.
  - intros i -> Hr.
    replace ((0 <=? i) && (i <=? 100)) with true by (symmetry; apply andb_true_iff; lia).
    intros Hres. apply after_mutator in Hres as [Hres ->].
    apply after_settle in Hres as [Hres ->].
    destruct (state_publisher_order H _ _ Hres) as (vol & m & Hact).
    exists vol, m. unfold Part000.received.
    change (actions (?a :: ?b :: ?c :: ?l)) with (actions ([a; b; c] ++ l)).
    rewrite actions_app, Hact. reflexivity.
  - intros b -> Hres. apply after_mutator in Hres as [Hres ->].
    apply after_settle in Hres as [Hres ->].
    destruct (state_publisher_order H _ _ Hres) as (vol & m & Hact).
    exists vol, m. unfold Part000.received.
    change (actions (?a :: ?b :: ?c :: ?l)) with (actions ([a; b; c] ++ l)).
    rewrite actions_app, Hact. reflexivity.
Qed.

(** C3. In [main.go] a volume or mute command that runs to its end
    calls the mutator and then the State Publisher for volume and for
    mute, in that order, with no sleep between the mutator and the
    first read. *)
Theorem main_publishes_without_settling v w payload :
  (forall i, GoStrconv.Atoi payload = Some i -> 0 <= i <= 100 ->
     result_of (MainGo.messageHandler H (topic_prefix v +:+ "/command/volume") payload (v, w))
     = Done tt ->
     exists vol m,
       actions (trace_of (MainGo.messageHandler H (topic_prefix v +:+ "/command/volume")
                            payload (v, w)))
       = EvExec (setVolume_call i).1 (setVolume_call i).2
           :: state_publisher_actions v vol m)
  /\ (forall b, GoStrconv.ParseBool payload = Some b ->
     result_of (MainGo.messageHandler H (topic_prefix v +:+ "/command/mute") payload (v, w))
     = Done tt ->
     exists vol m,
       actions (trace_of (MainGo.messageHandler H (topic_prefix v +:+ "/command/mute")
                            payload (v, w)))
       = EvExec (setMute_call b).1 (setMute_call b).2
           :: state_publisher_actions v vol m).
Proof.
  rewrite main_volume_topic, main_mute_topic.
  unfold MainGo.on_volume, MainGo.on_mute, setVolume, setMute.
  cbn [setVolume_call setMute_call fst snd].
  split.
  - intros i -> Hr.
    replace ((0 <=? i) && (i <=? 100)) with true by (symmetry; apply andb_true_iff; lia).
    intros Hres. apply after_mutator in Hres as [Hres ->].
    destruct (state_publisher_order H _ _ Hres) as (vol & m & Hact).
    exists vol, m.
    change (actions (?a :: ?l)) with (actions ([a] ++ l)).
    rewrite actions_app, Hact. reflexivity.
  - intros b -> Hres. apply after_mutator in Hres as [Hres ->].
    destruct (state_publisher_order H _ _ Hres) as (vol & m & Hact).
    exists vol, m.
    change (actions (?a :: ?l)) with (actions ([a] ++ l)).
    rewrite actions_app, Hact. reflexivity.
Qed.

End Settle.

(** ** Discovery *)

Section Discovery.

Context {W : Type} (H : Host W).

Lemma publishes_app a b : publishes (a ++ b) = publishes a ++ publishes b.
Proof. apply omap_app. Qed.

(** One descriptor: the publish is made whatever the token does, the
    call returns, and only the world moves. *)
Lemma publishConfig_run component objectId cfg v w :
  exists w' t,
    publishConfig H component objectId cfg (v, w) = (Done tt, (v, w'), t)
    /\ publishes t
       = [("homeassistant/" +:+ component +:+ "/" +:+ objectId +:+ "/config", true,
           Marshal.Marshal cfg)].
Proof.
  unfold publishConfig. go_exec; eauto.
Qed.

Lemma publishConfig_then component objectId cfg (k : Go W unit) v w :
  exists w',
    result_of ((publishConfig H component objectId cfg;; k) (v, w)) = result_of (k (v, w'))
    /\ publishes (trace_of ((publishConfig H component objectId cfg;; k) (v, w)))
       = ("homeassistant/" +:+ component +:+ "/" +:+ objectId +:+ "/config", true,
          Marshal.Marshal cfg) :: publishes (trace_of (k (v, w'))).
Proof.
  destruct (publishConfig_run component objectId cfg v w) as (w' & t & Hrun & Hpub).
  exists w'. rewrite trace_bind, bind_run, Hrun.
  cbn [fst snd result_of state_of trace_of]. rewrite publishes_app, Hpub.
  split; reflexivity.
Qed.

Lemma bind_getTopicPrefix {A} (k : string -> Go W A) v w :
  (getTopicPrefix ≫= k) (v, w) = k (topic_prefix v) (v, w).
Proof.
  unfold topic_prefix. go_unfold. destruct (k _ (v, w)) as [[o s] t]. reflexivity.
Qed.

Lemma bind_read_hostname {A} (k : string -> Go W A) v w :
  (read_hostname ≫= k) (v, w) = k (hostname v) (v, w).
Proof. go_unfold. destruct (k _ (v, w)) as [[o s] t]. reflexivity. Qed.

Lemma bind_read_model {A} (k : string -> Go W A) v w :
  (read_model ≫= k) (v, w) = k (model v) (v, w).
Proof. go_unfold. destruct (k _ (v, w)) as [[o s] t]. reflexivity. Qed.

Lemma discovery_publishes v w :
  result_of (MainGo.publishHADiscoveryConfig H (v, w)) = Done tt
  /\ publishes (trace_of (MainGo.publishHADiscoveryConfig H (v, w)))
     = map discovery_message (discovery_entities v).
Proof.
  unfold MainGo.publishHADiscoveryConfig.
  rewrite bind_getTopicPrefix, bind_read_hostname, bind_read_model. cbv zeta.
  repeat match goal with
    | |- context [(publishConfig H ?c ?o ?cfg ≫= ?k) (v, ?w0)] =>
        let w' := fresh "w" in
        destruct (publishConfig_then c o cfg (k tt) v w0) as (w' & -> & ->)
    end.
  match goal with
  | |- context [publishConfig H ?c ?o ?cfg (v, ?w0)] =>
      destruct (publishConfig_run c o cfg v w0) as (w' & t & -> & Ht)
  end.
  cbn [result_of trace_of fst snd]. rewrite Ht.
  split; reflexivity.
Qed.

(** C6. For host identity testhost the discovery pass publishes,
    retained, on homeassistant/number/testhost_volume/config the JSON
    text written out below, with min 0, max 100 and unique_id
    testhost_volume: for any model up to the encoding of the model, and
    byte for byte when the model is the host identity, as [main]
    assigns it; its seven publishes are retained and go to the topics
    listed.  For any identity the pass returns, and its publishes are
    one retained message per entity on
    homeassistant/<kind>/<unique id>/config carrying the serialized
    descriptor. *)
Theorem discovery_topics_and_volume_descriptor m v w :
  In ("homeassistant/number/testhost_volume/config", true,
      json_text "{'name':'testhost Volume','command_topic':'homeassistant/testhost/command/volume','state_topic':'homeassistant/testhost/state/volume','unique_id':'testhost_volume','min':0,'max':100,'device':{'identifiers':['testhost'],'name':'testhost','manufacturer':'Apple','model':"
      +:+ GoJson.encode_string m +:+ "}}")
     (publishes (trace_of (MainGo.publishHADiscoveryConfig H
                             ({| hostname := "testhost"; model := m |}, w))))
  /\ In ("homeassistant/number/testhost_volume/config", true,
         json_text "{'name':'testhost Volume','command_topic':'homeassistant/testhost/command/volume','state_topic':'homeassistant/testhost/state/volume','unique_id':'testhost_volume','min':0,'max':100,'device':{'identifiers':['testhost'],'name':'testhost','manufacturer':'Apple','model':'testhost'}}")
        (publishes (trace_of (MainGo.publishHADiscoveryConfig H
                                ({| hostname := "testhost"; model := "testhost" |}, w))))
  /\ map fst (publishes (trace_of (MainGo.publishHADiscoveryConfig H
                                     ({| hostname := "testhost"; model := m |}, w))))
     = [("homeassistant/number/testhost_volume/config", true);
        ("homeassistant/switch/testhost_mute/config", true);
        ("homeassistant/sensor/testhost_battery/config", true);
        ("homeassistant/binary_sensor/testhost_power_adapter/config", true);
        ("homeassistant/switch/testhost_sleep/config", true);
        ("homeassistant/switch/testhost_display_sleep/config", true);
        ("homeassistant/switch/testhost_shutdown/config", true)]
  /\ result_of (MainGo.publishHADiscoveryConfig H (v, w)) = Done tt
  /\ publishes (trace_of (MainGo.publishHADiscoveryConfig H (v, w)))
     = map (fun e => (config_topic e.1 e.2, true, Marshal.Marshal e.2))
           (discovery_entities v).
Proof.
  split; [| split; [| split; [| apply discovery_publishes]]].
  - destruct (discovery_publishes {| hostname := "testhost"; model := m |} w) as [_ ->].
    left. unfold discovery_message. cbn [fst snd]. f_equal.
    unfold Marshal.Marshal, Marshal.to_value, Marshal.number, Marshal.device, GoJson.field.
    cbn [volumeNumberConfig device_of Number_Name Number_CommandTopic Number_StateTopic
         Number_UniqueID Min Max Number_Device Identifiers Device_Name Manufacturer Model
         map app GoJson.encode fst snd hostname model].
    generalize (GoJson.encode_string m) as e. intros e.
    transitivity
      (json_text "{'name':'testhost Volume','command_topic':'homeassistant/testhost/command/volume','state_topic':'homeassistant/testhost/state/volume','unique_id':'testhost_volume','min':0,'max':100,'device':{'identifiers':['testhost'],'name':'testhost','manufacturer':'Apple','model':"
       +:+ (e +:+ "}") +:+ "}").
    + vm_compute. reflexivity.
    + apply (f_equal (String.append _)). rewrite append_assoc. reflexivity.
  - destruct (discovery_publishes {| hostname := "testhost"; model := "testhost" |} w)
      as [_ ->].
    left. reflexivity.
  - destruct (discovery_publishes {| hostname := "testhost"; model := m |} w) as [_ ->].
    reflexivity.
Qed.

Lemma lookup_retain l (store : gmap string string) topic :
  fold_left retain_step l store !! topic
  = match last_retained l topic with
    | Some p => Some p
    | None => store !! topic
    end.
Proof.
  revert store. induction l as [| [[t r] payload] l IH]; intros store; [reflexivity |].
  cbn [fold_left last_retained]. rewrite IH. unfold retain_step.
  destruct (last_retained l topic); [reflexivity |].
  destruct r; cbn [andb]; [| reflexivity].
  destruct (String.eqb_spec t topic) as [-> | Hne].
  - apply lookup_insert_eq.
  - apply lookup_insert_ne. exact Hne.
Qed.

Lemma retain_twice store a b :
  publishes b = publishes a -> retain store (a ++ b) = retain store a.
Proof.
  intros Hab. unfold retain. rewrite publishes_app, Hab, fold_left_app.
  apply map_eq. intros topic. rewrite !lookup_retain.
  destruct (last_retained (publishes a) topic); reflexivity.
Qed.

(** C7. The discovery pass is idempotent: with the same host identity
    and model it publishes the same topics and byte-identical payloads
    from any world; run twice in a row it publishes them twice, and the
    payloads the broker retains after the second pass are those it
    retained after the first. *)
Theorem discovery_is_idempotent v w w2 store :
  publishes (trace_of (MainGo.publishHADiscoveryConfig H (v, w2)))
  = publishes (trace_of (MainGo.publishHADiscoveryConfig H (v, w)))
  /\ publishes (trace_of ((MainGo.publishHADiscoveryConfig H;;
                           MainGo.publishHADiscoveryConfig H) (v, w)))
     = publishes (trace_of (MainGo.publishHADiscoveryConfig H (v, w)))
       ++ publishes (trace_of (MainGo.publishHADiscoveryConfig H (v, w)))
  /\ retain store (trace_of ((MainGo.publishHADiscoveryConfig H;;
                              MainGo.publishHADiscoveryConfig H) (v, w)))
     = retain store (trace_of (MainGo.publishHADiscoveryConfig H (v, w))).
Proof.
  assert (Hsame : forall w1 w1', publishes (trace_of (MainGo.publishHADiscoveryConfig H (v, w1')))
                        = publishes (trace_of (MainGo.publishHADiscoveryConfig H (v, w1)))).
  { intros w1 w1'. rewrite !(proj2 (discovery_publishes v _)). reflexivity. }
  assert (Hseq : trace_of ((MainGo.publishHADiscoveryConfig H;;
                            MainGo.publishHADiscoveryConfig H) (v, w))
                 = trace_of (MainGo.publishHADiscoveryConfig H (v, w))
                   ++ trace_of (MainGo.publishHADiscoveryConfig H
                                  (v, world_of (MainGo.publishHADiscoveryConfig H (v, w))))).
  { rewrite trace_bind. rewrite (proj1 (discovery_publishes v w)).
    pose proof (keeps_main_discovery H (v, w)) as Hk. unfold vars_of, state_of, world_of in *.
    destruct (MainGo.publishHADiscoveryConfig H (v, w)) as [[o [v' w']] t].
    cbn [fst snd] in *. subst v'. reflexivity. }
  split; [apply Hsame |]. rewrite Hseq. split.
  - rewrite publishes_app. f_equal. apply Hsame.
  - apply retain_twice, Hsame.
Qed.

End Discovery.

(** ** The battery report *)

Section Regexp.

Import GoRegexp.

#[local] Arguments String.append : simpl nomatch.

Lemma span_digits_eq s :
  s = (span_digits s).1 +:+ (span_digits s).2
  /\ string_forallb is_digit (span_digits s).1 = true.
Proof.
  induction s as [| c s [IH1 IH2]]; [split; reflexivity |].
  cbn [span_digits]. destruct (is_digit c) eqn:Hc; [| split; reflexivity].
  destruct (span_digits s) as [ds rest]. cbn [fst snd] in *.
  split; [cbn; f_equal; exact IH1 | cbn; rewrite Hc; exact IH2].
Qed.

(** A run of digits that ends at a byte which is no digit is what
    [span_digits] takes. *)
Lemma span_digits_run ds c post :
  string_forallb is_digit ds = true -> is_digit c = false ->
  span_digits (ds +:+ String c post) = (ds, String c post).
Proof.
  intros Hds Hc. induction ds as [| d ds IH]; cbn in *.
  - rewrite Hc. reflexivity.
  - apply andb_true_iff in Hds as [Hd Hds]. rewrite Hd, (IH Hds). reflexivity.
Qed.

Lemma find_shape s :
  FindStringSubmatch_digits_percent s = []
  \/ exists g, FindStringSubmatch_digits_percent s = [g +:+ "%"; g]
               /\ g <> EmptyString /\ string_forallb is_digit g = true
               /\ exists pre post, s = pre +:+ g +:+ "%" +:+ post.
Proof.
  induction s as [| c s IH]; [left; reflexivity |].
  assert (Hrec : FindStringSubmatch_digits_percent s = []
     \/ exists g, FindStringSubmatch_digits_percent s = [g +:+ "%"; g]
               /\ g <> EmptyString /\ string_forallb is_digit g = true
               /\ exists pre post, String c s = pre +:+ g +:+ "%" +:+ post).
  { destruct IH as [IH | (g & Hg & Hne & Hd & pre & post & ->)]; [left; exact IH |].
    right. exists g. repeat split; try assumption. exists (String c pre), post. reflexivity. }
  cbn [FindStringSubmatch_digits_percent].
  destruct (span_digits_eq (String c s)) as [Heq Hdig].
  destruct (span_digits (String c s)) as [[| d ds] [| c' rest]]; try exact Hrec.
  cbn [fst snd] in *.
  destruct (Ascii.eqb_spec c' "%") as [-> | Hne]; [| exact Hrec].
  right. exists (String d ds). repeat split; try assumption; [discriminate |].
  exists EmptyString, rest. exact Heq.
Qed.

Lemma find_of_match pre ds post :
  ds <> EmptyString -> string_forallb is_digit ds = true ->
  FindStringSubmatch_digits_percent (pre +:+ ds +:+ "%" +:+ post) <> [].
Proof.
  intros Hne Hds. induction pre as [| c pre IH].
  - destruct ds as [| d ds]; [congruence |].
    change (EmptyString +:+ String d ds +:+ "%" +:+ post)
      with (String d (ds +:+ String "%" post)).
    cbn [FindStringSubmatch_digits_percent].
    change (String d (ds +:+ String "%" post)) with (String d ds +:+ String "%" post).
    rewrite span_digits_run by (assumption || reflexivity).
    cbn. discriminate.
  - change (String c pre +:+ ds +:+ "%" +:+ post)
      with (String c (pre +:+ ds +:+ "%" +:+ post)).
    cbn [FindStringSubmatch_digits_percent].
    destruct (span_digits _) as [[| d' ds'] [| c' rest]]; try exact IH.
    destruct (Ascii.eqb c' "%"); [discriminate | exact IH].
Qed.

Lemma find_none_iff s :
  FindStringSubmatch_digits_percent s = [] <-> ~ has_digits_percent s.
Proof.
  split.
  - intros Hnone (pre & ds & post & Hne & Hds & ->).
    exact (find_of_match pre ds post Hne Hds Hnone).
  - intros Hno. destruct (find_shape s) as [Hs | (g & _ & Hne & Hd & pre & post & Heq)];
      [exact Hs |].
    exfalso. apply Hno. exists pre, g, post. auto.
Qed.

Lemma span_digits_newline s :
  span_digits (s +:+ String newline EmptyString)
  = ((span_digits s).1, (span_digits s).2 +:+ String newline EmptyString).
Proof.
  induction s as [| c s IH]; [reflexivity |].
  change (String c s +:+ String newline EmptyString)
    with (String c (s +:+ String newline EmptyString)).
  cbn [span_digits]. destruct (is_digit c); [| reflexivity].
  rewrite IH. destruct (span_digits s). reflexivity.
Qed.

(** A trailing newline changes no match: it is neither a digit nor
    the percent sign. *)
Lemma find_newline s :
  FindStringSubmatch_digits_percent (s +:+ String newline EmptyString)
  = FindStringSubmatch_digits_percent s.
Proof.
  induction s as [| c s IH]; [reflexivity |].
  change (String c s +:+ String newline EmptyString)
    with (String c (s +:+ String newline EmptyString)).
  cbn [FindStringSubmatch_digits_percent]. rewrite IH.
  change (String c (s +:+ String newline EmptyString))
    with (String c s +:+ String newline EmptyString).
  rewrite span_digits_newline.
  destruct (span_digits (String c s)) as [[| d ds] [| c' rest]]; reflexivity.
Qed.

Lemma substring_all s : substring 0 (String.length s) s = s.
Proof. induction s as [| c s IH]; [reflexivity | cbn; f_equal; exact IH]. Qed.

Lemma substring_split s k :
  (k <= String.length s)%nat ->
  s = substring 0 k s +:+ substring k (String.length s - k) s.
Proof.
  revert s. induction k as [| k IH]; intros s Hk.
  - rewrite Nat.sub_0_r, substring_all. destruct s; reflexivity.
  - destruct s as [| c s]; [cbn in Hk; lia |].
    cbn in Hk. cbn. f_equal. apply IH. lia.
Qed.

Lemma TrimSuffix_newline s :
  GoStrings.TrimSuffix s (String newline EmptyString) = s
  \/ s = GoStrings.TrimSuffix s (String newline EmptyString) +:+ String newline EmptyString.
Proof.
  unfold GoStrings.TrimSuffix, GoStrings.HasSuffix.
  change (String.length (String newline EmptyString)) with 1%nat.
  destruct (1 <=? String.length s)%nat eqn:Hlen; [| left; reflexivity].
  destruct (String.eqb_spec (substring (String.length s - 1) 1 s) (String newline EmptyString))
    as [Heq | Hne]; [| left; reflexivity].
  right. cbn [andb]. apply Nat.leb_le in Hlen.
  rewrite <- Heq.
  pose proof (substring_split s (String.length s - 1)) as Hsplit.
  replace (String.length s - (String.length s - 1))%nat with 1%nat in Hsplit by lia.
  apply Hsplit. lia.
Qed.

Lemma find_TrimSuffix s :
  FindStringSubmatch_digits_percent (GoStrings.TrimSuffix s (String newline EmptyString))
  = FindStringSubmatch_digits_percent s.
Proof.
  destruct (TrimSuffix_newline s) as [-> | Hs]; [reflexivity |].
  rewrite Hs at 2. symmetry. apply find_newline.
Qed.

End Regexp.

Section Battery.

Context {W : Type} (H : Host W).

(** C10. When the output of the battery query contains no run of
    digits immediately followed by a percent sign, [getBatteryInfo]
    panics, and so does [updateBattery], before any publish: the trace
    is the query alone.  When the output contains such a run,
    [getBatteryInfo] returns, and the percent string it returns is a
    non-empty string of decimal digits; whenever it returns, the
    percent string is one. *)
Theorem battery_read_panics_without_percent v w raw w' :
  os_exec H "/usr/bin/pmset" ["-g"; "batt"] w = (CmdOutput raw, w') ->
  (~ has_digits_percent raw ->
   getBatteryInfo H (v, w) = (Panic, (v, w'), [EvExec "/usr/bin/pmset" ["-g"; "batt"]])
   /\ updateBattery H (v, w) = (Panic, (v, w'), [EvExec "/usr/bin/pmset" ["-g"; "batt"]]))
  /\ (has_digits_percent raw ->
      exists percent,
        getBatteryInfo H (v, w)
        = (Done (percent,
                 GoStrings.Contains (GoStrings.TrimSuffix raw (String newline EmptyString))
                   "AC Power"),
           (v, w'), [EvExec "/usr/bin/pmset" ["-g"; "batt"]])
        /\ percent <> EmptyString /\ string_forallb is_digit percent = true)
  /\ (forall percent charging,
        result_of (getBatteryInfo H (v, w)) = Done (percent, charging) ->
        percent <> EmptyString /\ string_forallb is_digit percent = true).
Proof.
  intros Hrun.
  assert (Hinfo : getBatteryInfo H (v, w)
     = match GoRegexp.FindStringSubmatch_digits_percent raw !! 1%nat with
       | None => (Panic, (v, w'), [EvExec "/usr/bin/pmset" ["-g"; "batt"]])
       | Some percent =>
           (Done (percent,
                  GoStrings.Contains (GoStrings.TrimSuffix raw (String newline EmptyString))
                    "AC Power"),
            (v, w'), [EvExec "/usr/bin/pmset" ["-g"; "batt"]])
       end).
  { unfold getBatteryInfo, getCommandOutput, Output. go_unfold. rewrite Hrun.
    cbn [fst snd app]. rewrite find_TrimSuffix.
    destruct (_ !! 1%nat); reflexivity. }
  split; [| split].
  - intros Hno. apply find_none_iff in Hno.
    unfold updateBattery. rewrite bind_run, Hinfo, Hno. split; reflexivity.
  - intros Hhas. rewrite Hinfo.
    destruct (find_shape raw) as [Hnone | (g & -> & Hne & Hd & _)].
    + exfalso. exact (proj1 (find_none_iff raw) Hnone Hhas).
    + exists g. repeat split; assumption.
  - intros percent charging. rewrite Hinfo.
    destruct (find_shape raw) as [-> | (g & -> & Hne & Hd & _)]; [discriminate |].
    cbn. intros [= <- _]. split; assumption.
Qed.

End Battery.

(** ** Host identity *)

Section Identity.

Context {W : Type} (H : Host W).

Lemma remove_non_hostname_chars_sanitized s :
  string_forallb GoRegexp.hostname_char (GoRegexp.remove_non_hostname_chars s) = true.
Proof.
  induction s as [| c s IH]; [reflexivity |].
  cbn [GoRegexp.remove_non_hostname_chars].
  destruct (GoRegexp.hostname_char c) eqn:Hc; [cbn; rewrite Hc |]; exact IH.
Qed.

(** What [getHostname] computes: the first dot-separated part of the
    machine's name without the bytes outside [a-zA-Z0-9_-]. *)
Lemma getHostname_sanitized s name :
  result_of (getHostname H s) = Done name ->
  exists machine,
    os_Hostname H s.2 = CmdOutput machine
    /\ name = GoRegexp.remove_non_hostname_chars (GoStrings.Split_first machine ".")
    /\ string_forallb GoRegexp.hostname_char name = true.
Proof.
  unfold getHostname. go_unfold.
  destruct (os_Hostname H s.2) as [machine | err]; cbn; [| discriminate].
  intros [= <-]. exists machine. repeat split. apply remove_non_hostname_chars_sanitized.
Qed.

Lemma vars_bind {A B} (m : Go W A) (k : A -> Go W B) (s : Vars * W) :
  vars_of ((m ≫= k) s) =
  match result_of (m s) with
  | Done a => vars_of (k a (state_of (m s)))
  | _ => vars_of (m s)
  end.
Proof. rewrite bind_run. destruct (result_of (m s)); reflexivity. Qed.

(** C8. [main] never calls [getHostname]: whenever start-up gets
    past the configuration, the host identity and the model are the
    literal MacBookPRO_M2 that [main] assigns, whatever name the
    machine reports. *)
Theorem main_startup_identity s c :
  result_of (getConfig H (mkConfig EmptyString EmptyString EmptyString EmptyString) s) = Done c ->
  vars_of (main_startup H s)
  = {| hostname := "MacBookPRO_M2"; model := "MacBookPRO_M2" |}.
Proof.
  intros Hc.
  assert (Hst : state_of (getConfig H (mkConfig EmptyString EmptyString EmptyString EmptyString) s) = s).
  { unfold getConfig. go_unfold.
    destruct (ReadFile H _ s.2); cbn; [| reflexivity].
    destruct (yaml_Unmarshal H _ _); cbn; [reflexivity |].
    repeat (match goal with |- context [if ?b then _ else _] => destruct b end;
            cbn; try reflexivity). }
  assert (Hclient : forall a b c0 d, keeps_vars (getMQTTClient H a b c0 d)).
  { intros. unfold getMQTTClient, Printf. keeps. }
  unfold main_startup.
  rewrite vars_bind.
  cbn [result_of state_of vars_of fst snd Println emit].
  rewrite vars_bind, Hc, Hst.
  rewrite vars_bind.
  cbn [result_of state_of vars_of fst snd write_hostname].
  rewrite vars_bind.
  cbn [result_of state_of vars_of fst snd read_hostname hostname].
  rewrite vars_bind.
  cbn [result_of state_of vars_of fst snd write_model hostname].
  apply Hclient.
Qed.

End Identity.

(** ** Reconnection *)

Section Reconnect.

Context {W : Type} (H : Host W).







End Reconnect.

(** ** The statements on the fake host *)

Lemma volume_state_is_read_back_on_fake :
  published_on "homeassistant/testhost/state/volume"
    (trace_of (MainGo.messageHandler Fake.host "homeassistant/testhost/command/volume" "57"
                 (Fake.testhost, Fake.world))) = ["55"]
  /\ published_on "homeassistant/testhost/state/volume"
       (trace_of (Part000.messageHandler Fake.host "homeassistant/testhost/command/volume" "57"
                    (Fake.testhost, Fake.world))) = ["55"].
Proof.
  apply (volume_state_is_read_back Fake.host Fake.testhost Fake.world "57" 57 EmptyString
           (Fake.mkWorld 55 false "Now drawing from 'Battery Power'" 501 "testhost.local"
              TokenDone));
    [reflexivity | lia | reflexivity].
Defined.

Lemma invalid_volume_is_only_logged_on_fake :
  MainGo.messageHandler Fake.host "homeassistant/testhost/command/volume" "150"
    (Fake.testhost, Fake.world)
  = (Done tt, (Fake.testhost, Fake.world), [EvPrintln [LString "Incorrect value"]])
  /\ Part000.messageHandler Fake.host "homeassistant/testhost/command/volume" "150"
       (Fake.testhost, Fake.world)
     = (Done tt, (Fake.testhost, Fake.world),
        [Part000.received "homeassistant/testhost/command/volume" "150";
         EvPrintln [LString "Incorrect volume value"]]).
Proof.
  apply (invalid_volume_is_only_logged Fake.host Fake.testhost Fake.world "150").
  right. exists 150. split; [reflexivity | lia].
Defined.

Lemma main_publishes_without_settling_on_fake :
  exists vol m,
    actions (trace_of (MainGo.messageHandler Fake.host "homeassistant/testhost/command/volume"
                         "55" (Fake.testhost, Fake.world)))
    = EvExec osascript ["-e"; "set volume output volume 55"]
        :: state_publisher_actions Fake.testhost vol m.
Proof.
  apply (proj1 (main_publishes_without_settling Fake.host Fake.testhost Fake.world "55") 55);
    [reflexivity | lia | reflexivity].
Defined.

(** C4: the payload [1] is neither of the two literal forms, and the
    mutator runs. *)
Lemma mute_accepts_other_spellings :
  existsb (String.eqb "1") ["true"; "false"] = false
  /\ execs (trace_of (MainGo.messageHandler Fake.host "homeassistant/testhost/command/mute" "1"
                        (Fake.testhost, Fake.world)))
     = [setMute_call true; getVolume_call; getMute_call]
  /\ execs (trace_of (Part000.messageHandler Fake.host "homeassistant/testhost/command/mute" "1"
                        (Fake.testhost, Fake.world)))
     = [setMute_call true; getVolume_call; getMute_call].
Proof. repeat split; reflexivity. Qed.

Lemma main_ignores_the_machine_name_on_fake :
  result_of (getHostname Fake.host (zero_vars, Fake.world)) = Done "testhost"
  /\ vars_of (main_startup Fake.host (zero_vars, Fake.world))
     = {| hostname := "MacBookPRO_M2"; model := "MacBookPRO_M2" |}.
Proof.
  split; [reflexivity |].
  apply (main_startup_identity Fake.host (zero_vars, Fake.world)
           (mkConfig "10.0.0.5" "1883" "u" "p")).
  reflexivity.
Defined.


Lemma battery_read_panics_without_percent_on_fake :
  (getBatteryInfo Fake.host (Fake.testhost, Fake.world)
   = (Panic, (Fake.testhost, Fake.world), [EvExec "/usr/bin/pmset" ["-g"; "batt"]])
   /\ updateBattery Fake.host (Fake.testhost, Fake.world)
      = (Panic, (Fake.testhost, Fake.world), [EvExec "/usr/bin/pmset" ["-g"; "batt"]]))
  /\ exists percent,
       getBatteryInfo Fake.host (Fake.testhost, charging)
       = (Done (percent,
                GoStrings.Contains
                  (GoStrings.TrimSuffix (Fake.pmset_batt charging) (String newline EmptyString))
                  "AC Power"),
          (Fake.testhost, charging), [EvExec "/usr/bin/pmset" ["-g"; "batt"]])
       /\ percent <> EmptyString /\ string_forallb is_digit percent = true.
Proof.
  split.
  - apply (proj1 (battery_read_panics_without_percent Fake.host Fake.testhost Fake.world
                    (Fake.pmset_batt Fake.world) Fake.world eq_refl)).
    apply find_none_iff. reflexivity.
  - apply (proj1 (proj2 (battery_read_panics_without_percent Fake.host Fake.testhost charging
                           (Fake.pmset_batt charging) charging eq_refl))).
    exists "Now drawing from 'AC Power' -InternalBattery-0 (id=4653155) ", "87", "; charging".
    split; [discriminate | split; reflexivity].
Defined.

(** ** Runs on the fake host *)

(** The device stores 55 for a request of 57; the second variant
    sleeps a second before it reads the state back. *)
Example volume_command_on_the_second_variant :
  actions (trace_of (Part000.messageHandler Fake.host
                       "homeassistant/testhost/command/volume" "57"
                       (Fake.testhost, Fake.world)))
  = [EvExec osascript ["-e"; "set volume output volume 57"];
     EvSleep (1 * Second);
     EvExec osascript ["-e"; "output volume of (get volume settings)"];
     EvPublish "homeassistant/testhost/state/volume" 0 false "55";
     EvExec osascript ["-e"; "output muted of (get volume settings)"];
     EvPublish "homeassistant/testhost/state/mute" 0 false "false"].
Proof. reflexivity. Qed.

Example volume_command_on_main :
  actions (trace_of (MainGo.messageHandler Fake.host
                       "homeassistant/testhost/command/volume" "57"
                       (Fake.testhost, Fake.world)))
  = [EvExec osascript ["-e"; "set volume output volume 57"];
     EvExec osascript ["-e"; "output volume of (get volume settings)"];
     EvPublish "homeassistant/testhost/state/volume" 0 false "55";
     EvExec osascript ["-e"; "output muted of (get volume settings)"];
     EvPublish "homeassistant/testhost/state/mute" 0 false "false"].
Proof. reflexivity. Qed.

Example shutdown_command_on_main :
  actions (trace_of (MainGo.messageHandler Fake.host
                       "homeassistant/testhost/command/shutdown" "shutdown"
                       (Fake.testhost, Fake.world)))
  = [EvPublish "homeassistant/testhost/state/shutdown" 0 false "shutdown_command_received";
     EvSleep (1 * Second);
     EvExec osascript ["-e"; shutdown_script]].
Proof. reflexivity. Qed.

Example unknown_topic_is_ignored :
  MainGo.messageHandler Fake.host "homeassistant/testhost/command/reboot" "reboot"
    (Fake.testhost, Fake.world)
  = (Done tt, (Fake.testhost, Fake.world), []).
Proof. reflexivity. Qed.

Example battery_report_is_parsed :
  result_of (getBatteryInfo Fake.host
               (Fake.testhost,
                Fake.mkWorld 30 false
                  "Now drawing from 'AC Power' -InternalBattery-0 (id=4653155) 87%; charging"
                  501 "testhost.local" TokenDone))
  = Done ("87", true).
Proof. reflexivity. Qed.

Example discovery_topics_on_fake :
  map (fun p => p.1.1)
      (publishes (trace_of (MainGo.publishHADiscoveryConfig Fake.host
                              (Fake.testhost, Fake.world))))
  = ["homeassistant/number/testhost_volume/config";
     "homeassistant/switch/testhost_mute/config";
     "homeassistant/sensor/testhost_battery/config";
     "homeassistant/binary_sensor/testhost_power_adapter/config";
     "homeassistant/switch/testhost_sleep/config";
     "homeassistant/switch/testhost_display_sleep/config";
     "homeassistant/switch/testhost_shutdown/config"].
Proof. reflexivity. Qed.

Example Atoi_examples :
  GoStrconv.Atoi "55" = Some 55
  /\ GoStrconv.Atoi "+7" = Some 7
  /\ GoStrconv.Atoi "-1" = Some (-1)
  /\ GoStrconv.Atoi "1_0" = None
  /\ GoStrconv.Atoi "5.0" = None
  /\ GoStrconv.Atoi EmptyString = None
  /\ GoStrconv.Atoi "9223372036854775808" = None.
Proof. repeat split; reflexivity. Qed.

(** * Further properties of the program *)

Section Startup.

Context {W : Type} (H : Host W).

(** X2. [getConfig] returns a configuration exactly when the file is
    read, decodes, and none of the four fields is empty; it leaves the
    state as it is and logs nothing on that path, and every other case
    ends the process with status 1. *)
Theorem getConfig_requires_every_field c0 s :
  (forall c,
     getConfig H c0 s = (Done c, s, [])
     <-> exists content,
           ReadFile H "mac2mqtt.yaml" s.2 = CmdOutput content
           /\ yaml_Unmarshal H content c0 = inr c
           /\ Ip c <> EmptyString /\ Port c <> EmptyString
           /\ User c <> EmptyString /\ Password c <> EmptyString)
  /\ ((exists c, getConfig H c0 s = (Done c, s, []))
      \/ exists args, getConfig H c0 s = (Exit 1, s, [EvFatal args])).
Proof.
  unfold getConfig. go_unfold.
  destruct (ReadFile H "mac2mqtt.yaml" s.2) as [content | err]; cbn [fst snd app].
  2:{ split; [| right; eauto]. intros c. split; [discriminate |].
      intros (content & Hc & _). discriminate. }
  destruct (yaml_Unmarshal H content c0) as [err | c1] eqn:Hy; cbn [fst snd app].
  { split; [| right; eauto]. intros c. split; [discriminate |].
    intros (content' & [= <-] & Hu & _). congruence. }
  assert (Hsame : forall c content',
             CmdOutput content = CmdOutput content' ->
             yaml_Unmarshal H content' c0 = inr c -> c = c1).
  { intros c content' [= <-] Hu. congruence. }
  destruct (String.eqb_spec (Ip c1) EmptyString) as [Hip | Hip].
  { split; [| right; eauto]. intros c. split; [discriminate |].
    intros (content' & Hc & Hu & Hne & _). rewrite (Hsame _ _ Hc Hu) in Hne. contradiction. }
  destruct (String.eqb_spec (Port c1) EmptyString) as [Hport | Hport].
  { split; [| right; eauto]. intros c. split; [discriminate |].
    intros (content' & Hc & Hu & _ & Hne & _). rewrite (Hsame _ _ Hc Hu) in Hne.
    contradiction. }
  destruct (String.eqb_spec (User c1) EmptyString) as [Huser | Huser].
  { split; [| right; eauto]. intros c. split; [discriminate |].
    intros (content' & Hc & Hu & _ & _ & Hne & _). rewrite (Hsame _ _ Hc Hu) in Hne.
    contradiction. }
  destruct (String.eqb_spec (Password c1) EmptyString) as [Hpw | Hpw].
  { split; [| right; eauto]. intros c. split; [discriminate |].
    intros (content' & Hc & Hu & _ & _ & _ & Hne). rewrite (Hsame _ _ Hc Hu) in Hne.
    contradiction. }
  split; [| left; eauto]. intros c. split.
  - intros [= <-]. exists content. auto 10.
  - intros (content' & Hc & Hu & _). rewrite (Hsame _ _ Hc Hu). reflexivity.
Qed.

(** X3. The first connection is fatal when it fails, a reconnection is
    not: with a token that times out or carries an error
    [getMQTTClient] panics after one attempt and one wait of five
    seconds, while a turn of the reconnect loop returns and asks for
    another turn; with a token that ends well both return. *)
Theorem first_connect_panics_reconnect_retries ip port user password v w :
  timing (trace_of (getMQTTClient H ip port user password (v, w)))
  = [EvConnect; EvWaitTimeout (5 * Second)]
  /\ match (mqtt_Connect H w).1 with
     | TokenDone =>
         result_of (getMQTTClient H ip port user password (v, w)) = Done tt
         /\ result_of (reconnect_iteration H (v, w)) = Done true
     | _ =>
         result_of (getMQTTClient H ip port user password (v, w)) = Panic
         /\ result_of (reconnect_iteration H (v, w)) = Done false
     end.
Proof.
  unfold getMQTTClient, reconnect_iteration. go_exec; cbn; repeat split; reflexivity.
Qed.

End Startup.

Section Hostname.

Context {W : Type} (H : Host W).

Lemma remove_keeps_clean s :
  string_forallb GoRegexp.hostname_char s = true ->
  GoRegexp.remove_non_hostname_chars s = s.
Proof.
  induction s as [| c s IH]; [reflexivity |]. cbn.
  intros [Hc Hs]%andb_true_iff. rewrite Hc, (IH Hs). reflexivity.
Qed.

Lemma Split_first_keeps_clean s :
  string_forallb GoRegexp.hostname_char s = true -> GoStrings.Split_first s "." = s.
Proof.
  induction s as [| c s IH]; [reflexivity |]. cbn [string_forallb GoStrings.Split_first].
  intros [Hc Hs]%andb_true_iff.
  destruct (Ascii.eqb_spec c ".") as [-> | _]; [discriminate |].
  rewrite (IH Hs). reflexivity.
Qed.

(** X4. [getHostname] ends the process when the machine has no name to
    give.  Otherwise it returns, without touching the state, a name made
    only of bytes of [a-zA-Z0-9_-]; sanitizing that name again changes
    nothing, and a machine name that is already clean is returned as it
    is. *)
Theorem getHostname_returns_a_clean_name s :
  match os_Hostname H s.2 with
  | CmdError err => getHostname H s = (Exit 1, s, [EvFatal [LError (ErrExternal err)]])
  | CmdOutput machine =>
      exists name,
        getHostname H s = (Done name, s, [])
        /\ string_forallb GoRegexp.hostname_char name = true
        /\ GoRegexp.remove_non_hostname_chars (GoStrings.Split_first name ".") = name
        /\ (string_forallb GoRegexp.hostname_char machine = true -> name = machine)
  end.
Proof.
  unfold getHostname. go_unfold.
  destruct (os_Hostname H s.2) as [machine | err]; [| reflexivity].
  eexists. split; [reflexivity |].
  pose proof (remove_non_hostname_chars_sanitized (GoStrings.Split_first machine ".")) as Hclean.
  repeat split.
  - exact Hclean.
  - rewrite (Split_first_keeps_clean _ Hclean). apply remove_keeps_clean, Hclean.
  - intros Hm. rewrite (Split_first_keeps_clean _ Hm). apply remove_keeps_clean, Hm.
Qed.

End Hostname.

Section Publisher.

Context {W : Type} (H : Host W).

Ltac topics :=
  unfold published_on, publishes, topic_prefix; cbn [omap list_omap];
  rewrite ?String.eqb_refl, ?eqb_append_l;
  cbn [String.eqb Ascii.eqb Bool.eqb omap list_omap].

(** X5. A publish of the volume or the mute state ends the way its
    read of the host ends: the broker token, timed out or in error,
    changes log lines only.  When the read succeeds there is exactly
    one publish, not retained, on the state topic, carrying the value
    read; when it fails there is none. *)
Theorem state_publish_follows_the_host_read v w :
  result_of (updateVolume H (v, w))
  = match result_of (getCurrentVolume H (v, w)) with
    | Done _ => Done tt
    | Exit c => Exit c
    | Panic => Panic
    end
  /\ publishes (trace_of (updateVolume H (v, w)))
     = match result_of (getCurrentVolume H (v, w)) with
       | Done vol => [(topic_prefix v +:+ "/state/volume", false, GoStrconv.Itoa vol)]
       | _ => []
       end
  /\ result_of (updateMute H (v, w))
     = match result_of (getMuteStatus H (v, w)) with
       | Done _ => Done tt
       | Exit c => Exit c
       | Panic => Panic
       end
  /\ publishes (trace_of (updateMute H (v, w)))
     = match result_of (getMuteStatus H (v, w)) with
       | Done m => [(topic_prefix v +:+ "/state/mute", false, GoStrconv.FormatBool m)]
       | _ => []
       end.
Proof.
  repeat split; go_exec; reflexivity.
Qed.

(** X6. One battery cycle makes one query of the host and, when the
    report parses, two publishes from that one answer, neither
    retained: the percent on the battery topic, then the power-adapter
    flag; the cycle returns whatever the broker tokens do. *)
Theorem battery_cycle_publishes_one_snapshot v w percent power :
  result_of (getBatteryInfo H (v, w)) = Done (percent, power) ->
  result_of (updateBattery H (v, w)) = Done tt
  /\ execs (trace_of (updateBattery H (v, w))) = [("/usr/bin/pmset", ["-g"; "batt"])]
  /\ publishes (trace_of (updateBattery H (v, w)))
     = [(topic_prefix v +:+ "/state/battery", false, percent);
        (topic_prefix v +:+ "/state/power_adapter", false, GoStrconv.FormatBool power)].
Proof.
  go_exec;
    repeat (match goal with
            | |- context [match ?x !! 1%nat with _ => _ end] => destruct (x !! 1%nat) eqn:?
            end; go_exec);
    intros Hinfo; try discriminate; injection Hinfo as <- <-;
    repeat split; reflexivity.
Qed.

End Publisher.

Lemma battery_cycle_publishes_one_snapshot_on_fake :
  result_of (updateBattery Fake.host (Fake.testhost, charging)) = Done tt
  /\ execs (trace_of (updateBattery Fake.host (Fake.testhost, charging)))
     = [("/usr/bin/pmset", ["-g"; "batt"])]
  /\ publishes (trace_of (updateBattery Fake.host (Fake.testhost, charging)))
     = [("homeassistant/testhost/state/battery", false, "87");
        ("homeassistant/testhost/state/power_adapter", false, "true")].
Proof.
  apply (battery_cycle_publishes_one_snapshot Fake.host Fake.testhost charging "87" true).
  reflexivity.
Defined.

Section Router.

Context {W : Type} (H : Host W).

Lemma if_topic_other (v : Vars) (w : W) topic suffix body :
  String.eqb topic (topic_prefix v +:+ suffix) = false ->
  MainGo.if_topic topic suffix body (v, w) = (Done tt, (v, w), []).
Proof.
  intros Hne. unfold MainGo.if_topic. rewrite bind_getTopicPrefix, Hne. reflexivity.
Qed.

(** X7. A message whose topic is none of the five command topics is
    ignored without error: [main.go] returns in the state it started in
    with an empty trace, the second variant with nothing but the line
    that logs the message. *)
Theorem unknown_topics_are_ignored v w topic payload :
  ~ In topic (command_topics v) ->
  MainGo.messageHandler H topic payload (v, w) = (Done tt, (v, w), [])
  /\ Part000.messageHandler H topic payload (v, w)
     = (Done tt, (v, w), [Part000.received topic payload]).
Proof.
  intros Hnot.
  assert (Hne : forall suffix,
             In (topic_prefix v +:+ suffix) (command_topics v) ->
             String.eqb topic (topic_prefix v +:+ suffix) = false).
  { intros suffix Hin. apply String.eqb_neq. intros ->. exact (Hnot Hin). }
  unfold command_topics in Hne. cbn [In] in Hne.
  split.
  - unfold MainGo.messageHandler.
    repeat (rewrite noop_bind by (apply if_topic_other, Hne; tauto)).
    apply if_topic_other, Hne. tauto.
  - unfold Part000.messageHandler. rewrite bind_getTopicPrefix.
    rewrite bind_run. unfold emit at 1 2 3.
    cbn [result_of state_of trace_of fst snd].
    rewrite !Hne by tauto. reflexivity.
Qed.

(** X8. When the command behind the mutator fails, a valid volume or
    mute command ends the process with status 1 right there: the trace
    stops at the failed command and its fatal log line, and no state is
    read or published. *)
Theorem failed_mutator_ends_the_process v w payload :
  (forall i err w1,
     GoStrconv.Atoi payload = Some i -> 0 <= i <= 100 ->
     os_exec H (setVolume_call i).1 (setVolume_call i).2 w = (CmdError err, w1) ->
     MainGo.messageHandler H (topic_prefix v +:+ "/command/volume") payload (v, w)
     = (Exit 1, (v, w1),
        [EvExec (setVolume_call i).1 (setVolume_call i).2;
         EvFatal [LError (ErrExternal err)]])
     /\ Part000.messageHandler H (topic_prefix v +:+ "/command/volume") payload (v, w)
        = (Exit 1, (v, w1),
           [Part000.received (topic_prefix v +:+ "/command/volume") payload;
            EvExec (setVolume_call i).1 (setVolume_call i).2;
            EvFatal [LError (ErrExternal err)]]))
  /\ (forall b err w1,
     GoStrconv.ParseBool payload = Some b ->
     os_exec H (setMute_call b).1 (setMute_call b).2 w = (CmdError err, w1) ->
     MainGo.messageHandler H (topic_prefix v +:+ "/command/mute") payload (v, w)
     = (Exit 1, (v, w1),
        [EvExec (setMute_call b).1 (setMute_call b).2;
         EvFatal [LError (ErrExternal err)]])
     /\ Part000.messageHandler H (topic_prefix v +:+ "/command/mute") payload (v, w)
        = (Exit 1, (v, w1),
           [Part000.received (topic_prefix v +:+ "/command/mute") payload;
            EvExec (setMute_call b).1 (setMute_call b).2;
            EvFatal [LError (ErrExternal err)]])).
Proof.
  rewrite main_volume_topic, part_volume_topic, main_mute_topic, part_mute_topic.
  unfold MainGo.on_volume, Part000.on_volume, MainGo.on_mute, Part000.on_mute,
    after_event, setVolume, setMute.
  cbn [setVolume_call setMute_call fst snd].
  split.
  - intros i err w1 -> Hr Hset.
    replace ((0 <=? i) && (i <=? 100)) with true by (symmetry; apply andb_true_iff; lia).
    rewrite !bind_run, !runCommand_run, Hset. split; reflexivity.
  - intros b err w1 -> Hset.
    rewrite !bind_run, !runCommand_run, Hset. split; reflexivity.
Qed.

(** X9. Nothing that runs after start-up assigns the package
    variables: the connect handler, both callbacks, the two ticker
    cases, the connection-lost handler and any number of turns of the
    reconnect loop return with [hostname] and [model] as they found
    them, however they end. *)
Theorem identity_is_never_reassigned :
  keeps_vars (MainGo.connectHandler H)
  /\ (forall topic payload, keeps_vars (MainGo.messageHandler H topic payload))
  /\ (forall topic payload, keeps_vars (Part000.messageHandler H topic payload))
  /\ keeps_vars (volumeTick H)
  /\ keeps_vars (batteryTick H)
  /\ (forall err, keeps_vars (connectLostHandler err : Go W unit))
  /\ (forall fuel, keeps_vars (reconnect_loop H fuel)).
Proof.
  assert (Hloop : forall fuel, keeps_vars (reconnect_loop H fuel)).
  { induction fuel as [| n IH]; cbn [reconnect_loop]; keeps. }
  exact (conj (keeps_main_connectHandler H)
           (conj (keeps_main_messageHandler H)
              (conj (keeps_part_messageHandler H)
                 (conj (keeps_volumeTick H)
                    (conj (keeps_batteryTick H)
                       (conj keeps_connectLostHandler Hloop)))))).
Qed.

End Router.

Lemma unknown_topics_are_ignored_on_fake :
  MainGo.messageHandler Fake.host "homeassistant/testhost/command/reboot" "now"
    (Fake.testhost, Fake.world)
  = (Done tt, (Fake.testhost, Fake.world), [])
  /\ Part000.messageHandler Fake.host "homeassistant/testhost/command/reboot" "now"
       (Fake.testhost, Fake.world)
     = (Done tt, (Fake.testhost, Fake.world),
        [Part000.received "homeassistant/testhost/command/reboot" "now"]).
Proof.
  apply (unknown_topics_are_ignored Fake.host Fake.testhost Fake.world
           "homeassistant/testhost/command/reboot" "now").
  cbn. intros Hin. repeat (destruct Hin as [Heq | Hin]; [discriminate Heq |]). exact Hin.
Defined.

Lemma failed_mutator_ends_the_process_on_fake :
  MainGo.messageHandler no_commands "homeassistant/testhost/command/volume" "55"
    (Fake.testhost, Fake.world)
  = (Exit 1, (Fake.testhost, Fake.world),
     [EvExec osascript ["-e"; "set volume output volume 55"];
      EvFatal [LError (ErrExternal "exit status 1")]])
  /\ Part000.messageHandler no_commands "homeassistant/testhost/command/volume" "55"
       (Fake.testhost, Fake.world)
     = (Exit 1, (Fake.testhost, Fake.world),
        [Part000.received "homeassistant/testhost/command/volume" "55";
         EvExec osascript ["-e"; "set volume output volume 55"];
         EvFatal [LError (ErrExternal "exit status 1")]]).
Proof.
  apply (proj1 (failed_mutator_ends_the_process no_commands Fake.testhost Fake.world "55")
           55 "exit status 1" Fake.world);
    [reflexivity | lia | reflexivity].
Defined.

Lemma part_settles_before_publishing_on_fake :
  exists vol m,
    actions (trace_of (Part000.messageHandler Fake.host "homeassistant/testhost/command/mute"
                         "true" (Fake.testhost, Fake.world)))
    = EvExec osascript ["-e"; "set volume output muted true"]
        :: EvSleep (1 * Second) :: state_publisher_actions Fake.testhost vol m.
Proof.
  apply (proj2 (part_settles_before_publishing Fake.host Fake.testhost Fake.world "true") true);
    reflexivity.
Defined.

Section Connect.

Context {W : Type} (H : Host W).

Lemma broker_calls_app a b : broker_calls (a ++ b) = broker_calls a ++ broker_calls b.
Proof. apply List.filter_app. Qed.

Lemma publishConfig_calls component objectId cfg v w :
  exists w' t,
    publishConfig H component objectId cfg (v, w) = (Done tt, (v, w'), t)
    /\ broker_calls t
       = [EvPublish ("homeassistant/" +:+ component +:+ "/" +:+ objectId +:+ "/config") 0 true
            (Marshal.Marshal cfg)].
Proof.
  unfold publishConfig. go_exec; eauto.
Qed.

Lemma publishConfig_then_calls component objectId cfg (k : Go W unit) v w :
  exists w',
    result_of ((publishConfig H component objectId cfg;; k) (v, w)) = result_of (k (v, w'))
    /\ state_of ((publishConfig H component objectId cfg;; k) (v, w)) = state_of (k (v, w'))
    /\ broker_calls (trace_of ((publishConfig H component objectId cfg;; k) (v, w)))
       = EvPublish ("homeassistant/" +:+ component +:+ "/" +:+ objectId +:+ "/config") 0 true
           (Marshal.Marshal cfg) :: broker_calls (trace_of (k (v, w'))).
Proof.
  destruct (publishConfig_calls component objectId cfg v w) as (w' & t & Hrun & Hcalls).
  exists w'. rewrite trace_bind, bind_run, Hrun.
  cbn [fst snd result_of state_of trace_of]. rewrite broker_calls_app, Hcalls.
  repeat split; reflexivity.
Qed.

Lemma discovery_calls v w :
  exists w',
    result_of (MainGo.publishHADiscoveryConfig H (v, w)) = Done tt
    /\ state_of (MainGo.publishHADiscoveryConfig H (v, w)) = (v, w')
    /\ broker_calls (trace_of (MainGo.publishHADiscoveryConfig H (v, w)))
       = map discovery_publish (discovery_entities v).
Proof.
  unfold MainGo.publishHADiscoveryConfig.
  rewrite bind_getTopicPrefix, bind_read_hostname, bind_read_model. cbv zeta.
  repeat match goal with
    | |- context [(publishConfig H ?c ?o ?cfg ≫= ?k) (v, ?w0)] =>
        let w' := fresh "w" in
        destruct (publishConfig_then_calls c o cfg (k tt) v w0) as (w' & -> & -> & ->)
    end.
  match goal with
  | |- context [publishConfig H ?c ?o ?cfg (v, ?w0)] =>
      destruct (publishConfig_calls c o cfg v w0) as (w' & t & -> & Ht)
  end.
  exists w'. cbn [result_of state_of trace_of fst snd]. rewrite Ht.
  repeat split; reflexivity.
Qed.

Lemma seq_calls (m k : Go W unit) s s1 :
  result_of (m s) = Done tt -> state_of (m s) = s1 ->
  result_of ((m;; k) s) = result_of (k s1)
  /\ broker_calls (trace_of ((m;; k) s))
     = broker_calls (trace_of (m s)) ++ broker_calls (trace_of (k s1)).
Proof.
  intros Hres Hst. rewrite trace_bind, bind_run, Hres, Hst, broker_calls_app.
  split; reflexivity.
Qed.

Lemma listen_calls topic s :
  result_of (MainGo.listen H topic s) = Done tt
  /\ broker_calls (trace_of (MainGo.listen H topic s)) = [EvSubscribe topic 0].
Proof. destruct s as [v w]. unfold MainGo.listen. go_exec; split; reflexivity. Qed.

(** X10. On every connection the handler first announces the seven
    entities, each with one retained publish, and then subscribes once,
    at QoS 0, to the command wildcard of the host; it returns whatever
    the tokens of these calls do. *)
Theorem connect_announces_then_subscribes v w :
  result_of (MainGo.connectHandler H (v, w)) = Done tt
  /\ broker_calls (trace_of (MainGo.connectHandler H (v, w)))
     = map discovery_publish (discovery_entities v)
       ++ [EvSubscribe (topic_prefix v +:+ "/command/#") 0].
Proof.
  unfold MainGo.connectHandler.
  destruct (discovery_calls v w) as (w' & Hres & Hst & Hcalls).
  destruct (seq_calls (Println [LString "Connected to MQTT"])
              (MainGo.publishHADiscoveryConfig H;;
               prefix ← getTopicPrefix; MainGo.listen H (prefix +:+ "/command/#"))
              (v, w) (v, w) eq_refl eq_refl) as [-> ->].
  destruct (seq_calls (MainGo.publishHADiscoveryConfig H)
              (prefix ← getTopicPrefix; MainGo.listen H (prefix +:+ "/command/#"))
              (v, w) (v, w') Hres Hst) as [-> ->].
  rewrite Hcalls, bind_getTopicPrefix.
  destruct (listen_calls (topic_prefix v +:+ "/command/#") (v, w')) as [-> ->].
  split; reflexivity.
Qed.

End Connect.

Section Decimal.

Import GoStrconv.

Ltac digit_step :=
  cbn [NilEmpty.string_of_uint parse_digits Pos.of_uint_acc Pos.of_uint];
  match goal with
  | |- context [is_digit ?c] =>
      change (is_digit c) with true;
      let k := eval vm_compute in (byte_of c - 48) in
      change (byte_of c - 48) with k
  end;
  cbv iota.

Lemma parse_digits_pos d : forall p,
  parse_digits (Z.pos p) (NilEmpty.string_of_uint d) = Some (Z.pos (Pos.of_uint_acc d p)).
Proof.
  induction d as [| d IH | d IH | d IH | d IH | d IH | d IH | d IH | d IH | d IH | d IH];
    intros p; [reflexivity | ..]; digit_step;
    match goal with
    | |- parse_digits ?a _ = Some (Z.pos (Pos.of_uint_acc _ ?q)) =>
        replace a with (Z.pos q) by lia
    end; apply IH.
Qed.

Lemma parse_digits_zero d :
  parse_digits 0 (NilEmpty.string_of_uint d) = Some (Z.of_uint d).
Proof.
  unfold Z.of_uint.
  induction d as [| d IH | d IH | d IH | d IH | d IH | d IH | d IH | d IH | d IH | d IH];
    [reflexivity | exact IH | ..]; digit_step;
    match goal with
    | |- parse_digits ?a _ = _ =>
        let k := eval vm_compute in a in change a with k
    end; apply parse_digits_pos.
Qed.

Lemma string_of_uint_starts_with_a_digit d :
  d <> Decimal.Nil ->
  exists c r, NilEmpty.string_of_uint d = String c r /\ is_digit c = true.
Proof.
  destruct d; [congruence | ..]; intros _; cbn [NilEmpty.string_of_uint];
    eexists _, _; (split; [reflexivity | reflexivity]).
Qed.

(** X11. What the State Publisher writes decodes to what it read: for
    every [i] of Go's 64-bit [int], [Atoi (Itoa i)] is [i], and for
    every [b], [ParseBool (FormatBool b)] is [b]. *)
Theorem state_payloads_decode_back i b :
  minInt <= i <= maxInt ->
  Atoi (Itoa i) = Some i /\ ParseBool (FormatBool b) = Some b.
Proof.
  intros Hrange. split; [| destruct b; reflexivity].
  assert (Hin : (minInt <=? i) && (i <=? maxInt) = true) by (apply andb_true_iff; lia).
  pose proof (DecimalZ.of_to i) as Hback.
  unfold Itoa, Atoi. destruct (Z.to_int i) as [d | d] eqn:Hd.
  - assert (Hnil : d <> Decimal.Nil).
    { destruct i; unfold Z.to_int in Hd; try discriminate; injection Hd as <-;
        [discriminate | apply DecimalPos.Unsigned.to_uint_nonnil]. }
    destruct (string_of_uint_starts_with_a_digit d Hnil) as (c & r & Hs & Hc).
    cbn [NilEmpty.string_of_int]. rewrite Hs.
    assert (Hm : Ascii.eqb c "-" = false) by (destruct (Ascii.eqb_spec c "-"); [subst; discriminate | reflexivity]).
    assert (Hp : Ascii.eqb c "+" = false) by (destruct (Ascii.eqb_spec c "+"); [subst; discriminate | reflexivity]).
    rewrite Hm, Hp, <- Hs, parse_digits_zero.
    cbn [Z.of_int] in Hback. rewrite Hback, Hin. reflexivity.
  - assert (Hnil : d <> Decimal.Nil).
    { destruct i; unfold Z.to_int in Hd; try discriminate. injection Hd as <-.
      apply DecimalPos.Unsigned.to_uint_nonnil. }
    destruct (string_of_uint_starts_with_a_digit d Hnil) as (c & r & Hs & Hc).
    cbn [NilEmpty.string_of_int].
    change (Ascii.eqb (Ascii.Ascii true false true true false true false false) "-") with true.
    cbv iota beta. rewrite Hs, <- Hs, parse_digits_zero.
    cbn [Z.of_int] in Hback. rewrite Hback, Hin. reflexivity.
Qed.

End Decimal.

Lemma state_payloads_decode_back_at_55 :
  GoStrconv.Atoi (GoStrconv.Itoa 55) = Some 55
  /\ GoStrconv.ParseBool (GoStrconv.FormatBool true) = Some true.
Proof.
  apply (state_payloads_decode_back 55 true). unfold GoStrconv.minInt, GoStrconv.maxInt. lia.
Defined.

Section Report.

Import GoRegexp GoStrings.

#[local] Arguments String.append : simpl nomatch.

(** In front of a non-digit of [pre] that is no percent sign, the run
    of digits [span_digits] takes stops inside [pre]. *)
Lemma span_stops_before_percent pre rest :
  no_percent pre = true -> string_forallb is_digit pre = false ->
  exists ds c r, span_digits (pre +:+ rest) = (ds, String c r) /\ Ascii.eqb c "%" = false.
Proof.
  induction pre as [| c pre IH]; [discriminate |].
  cbn [no_percent string_forallb]. intros [Hc Hp]%andb_true_iff Hd.
  change (String c pre +:+ rest) with (String c (pre +:+ rest)).
  cbn [span_digits]. destruct (is_digit c) eqn:Hdc.
  - cbn [andb] in Hd. destruct (IH Hp Hd) as (ds & c' & r & -> & Hc').
    eexists _, _, _. split; [reflexivity | exact Hc'].
  - eexists _, _, _. split; [reflexivity |]. apply negb_true_iff, Hc.
Qed.

Lemma ends_with_digit_all pre :
  pre <> EmptyString -> ends_with_digit pre = false -> string_forallb is_digit pre = false.
Proof.
  induction pre as [| c pre IH]; [congruence |]. intros _ Hend.
  cbn [string_forallb]. destruct pre as [| c' pre'].
  - cbn in Hend. rewrite Hend. reflexivity.
  - rewrite IH; [apply andb_false_r | discriminate | exact Hend].
Qed.

(** X12. The percent [getBatteryInfo] reports is the first one of the
    output: when the text in front of a run of digits followed by a
    percent sign holds no percent sign and does not end in a digit, the
    match is that run, whatever follows it. *)
Theorem first_percentage_is_the_match pre ds post :
  no_percent pre = true -> ends_with_digit pre = false ->
  ds <> EmptyString -> string_forallb is_digit ds = true ->
  FindStringSubmatch_digits_percent (pre +:+ ds +:+ "%" +:+ post) = [ds +:+ "%"; ds].
Proof.
  intros Hp Hend Hne Hds. induction pre as [| c pre IH].
  - destruct ds as [| d ds]; [congruence |].
    change (EmptyString +:+ String d ds +:+ "%" +:+ post)
      with (String d (ds +:+ String "%" post)).
    cbn [FindStringSubmatch_digits_percent].
    change (String d (ds +:+ String "%" post)) with (String d ds +:+ String "%" post).
    rewrite span_digits_run by (assumption || reflexivity).
    reflexivity.
  - assert (Hall : string_forallb is_digit (String c pre) = false)
      by (apply ends_with_digit_all; [discriminate | exact Hend]).
    destruct (span_stops_before_percent (String c pre) (ds +:+ "%" +:+ post) Hp Hall)
      as (ds' & c' & r & Hspan & Hc').
    change (String c pre +:+ ds +:+ "%" +:+ post)
      with (String c (pre +:+ ds +:+ "%" +:+ post)) in *.
    cbn [FindStringSubmatch_digits_percent]. rewrite Hspan, Hc'.
    assert (Hrec : FindStringSubmatch_digits_percent (pre +:+ ds +:+ "%" +:+ post)
                   = [ds +:+ "%"; ds]).
    { apply IH.
      - cbn [no_percent string_forallb] in Hp. apply andb_true_iff in Hp as [_ Hp]. exact Hp.
      - destruct pre; [reflexivity | exact Hend]. }
    destruct ds'; exact Hrec.
Qed.

Lemma length_append_newline s :
  String.length (s +:+ String newline EmptyString) = S (String.length s).
Proof. induction s as [| c s IH]; [reflexivity | cbn; rewrite IH; reflexivity]. Qed.

Lemma substring_append_newline s :
  substring 0 (String.length s) (s +:+ String newline EmptyString) = s
  /\ substring (String.length s) 1 (s +:+ String newline EmptyString)
     = String newline EmptyString.
Proof.
  induction s as [| c s [IH1 IH2]]; [split; reflexivity |].
  cbn. rewrite IH1. split; [reflexivity | exact IH2].
Qed.

Lemma TrimSuffix_one_newline s :
  TrimSuffix (s +:+ String newline EmptyString) (String newline EmptyString) = s.
Proof.
  unfold TrimSuffix, HasSuffix.
  change (String.length (String newline EmptyString)) with 1%nat.
  rewrite length_append_newline.
  replace (S (String.length s) - 1)%nat with (String.length s) by lia.
  destruct (substring_append_newline s) as [-> ->].
  rewrite String.eqb_refl. reflexivity.
Qed.

End Report.

Section Output.

Context {W : Type} (H : Host W).

(** X13. [getCommandOutput] strips one trailing newline and no more:
    when the command prints [out] and a newline the result is [out],
    also when [out] itself ends in a newline. *)
Theorem getCommandOutput_strips_one_newline name arg v w out w1 :
  os_exec H name arg w = (CmdOutput (out +:+ String newline EmptyString), w1) ->
  getCommandOutput H name arg (v, w) = (Done out, (v, w1), [EvExec name arg]).
Proof.
  intros Hrun. unfold getCommandOutput, Output. go_unfold. rewrite Hrun.
  cbn [fst snd app]. rewrite TrimSuffix_one_newline. reflexivity.
Qed.

End Output.

Lemma getCommandOutput_strips_one_newline_on_fake :
  getCommandOutput Fake.host osascript ["-e"; "output volume of (get volume settings)"]
    (Fake.testhost, Fake.world)
  = (Done "30", (Fake.testhost, Fake.world),
     [EvExec osascript ["-e"; "output volume of (get volume settings)"]]).
Proof.
  apply (getCommandOutput_strips_one_newline Fake.host osascript
           ["-e"; "output volume of (get volume settings)"] Fake.testhost Fake.world "30"
           Fake.world).
  reflexivity.
Defined.

Lemma first_percentage_is_the_match_on_a_report :
  GoRegexp.FindStringSubmatch_digits_percent
    ("Now drawing from 'Battery Power' -InternalBattery-0 (id=4653155) " +:+ "100"
     +:+ "%" +:+ "; discharging; 20:00 remaining present: true")
  = ["100" +:+ "%"; "100"].
Proof.
  apply (first_percentage_is_the_match
           "Now drawing from 'Battery Power' -InternalBattery-0 (id=4653155) " "100"
           "; discharging; 20:00 remaining present: true");
    [reflexivity | reflexivity | discriminate | reflexivity].
Defined.

Section Power_flag.

Import GoStrings.

#[local] Arguments String.append : simpl nomatch.

Lemma prefix_append sub b : String.prefix sub (sub +:+ b) = true.
Proof.
  induction sub as [| c sub IH]; [destruct b; reflexivity |].
  cbn. rewrite IH. destruct (ascii_dec c c); [reflexivity | congruence].
Qed.

Lemma prefix_split sub s : String.prefix sub s = true -> exists b, s = sub +:+ b.
Proof.
  revert s. induction sub as [| c sub IH]; intros s Hp; [exists s; reflexivity |].
  destruct s as [| c' s]; [discriminate |]. cbn in Hp.
  destruct (ascii_dec c c') as [<- |]; [| discriminate].
  destruct (IH s Hp) as [b ->]. exists b. reflexivity.
Qed.

Lemma Contains_iff s sub :
  Contains s sub = true <-> exists a b, s = a +:+ sub +:+ b.
Proof.
  split.
  - induction s as [| c s IH]; cbn [Contains]; intros Hc.
    + rewrite orb_false_r in Hc. destruct (prefix_split _ _ Hc) as [b ->].
      exists EmptyString, b. reflexivity.
    + apply orb_true_iff in Hc as [Hp | Hr].
      * destruct (prefix_split _ _ Hp) as [b ->]. exists EmptyString, b. reflexivity.
      * destruct (IH Hr) as (a & b & ->). exists (String c a), b. reflexivity.
  - intros (a & b & ->). induction a as [| c a IH].
    + change (EmptyString +:+ sub +:+ b) with (sub +:+ b).
      destruct (sub +:+ b) eqn:E; cbn [Contains]; rewrite <- E, prefix_append; reflexivity.
    + change (String c a +:+ sub +:+ b) with (String c (a +:+ sub +:+ b)).
      cbn [Contains]. rewrite IH. apply orb_true_r.
Qed.

Lemma prefix_newline sub s :
  sub <> EmptyString -> no_newline sub = true ->
  String.prefix sub (s +:+ String newline EmptyString) = String.prefix sub s.
Proof.
  revert s. induction sub as [| a sub IH]; intros s Hne Hnl; [congruence |].
  cbn [no_newline string_forallb] in Hnl. apply andb_true_iff in Hnl as [Ha Hsub].
  destruct s as [| c s].
  - cbn. destruct (ascii_dec a newline) as [-> |]; [| reflexivity].
    rewrite Ascii.eqb_refl in Ha. discriminate.
  - change (String c s +:+ String newline EmptyString)
      with (String c (s +:+ String newline EmptyString)).
    cbn [String.prefix]. destruct (ascii_dec a c); [| reflexivity].
    destruct sub as [| a' sub']; [destruct s; reflexivity |].
    apply IH; [discriminate | exact Hsub].
Qed.

Lemma Contains_newline sub s :
  sub <> EmptyString -> no_newline sub = true ->
  Contains (s +:+ String newline EmptyString) sub = Contains s sub.
Proof.
  intros Hne Hnl. induction s as [| c s IH].
  - destruct sub as [| a sub]; [congruence |].
    cbn [no_newline string_forallb] in Hnl. apply andb_true_iff in Hnl as [Ha _].
    cbn. destruct (ascii_dec a newline) as [-> |]; [| reflexivity].
    rewrite Ascii.eqb_refl in Ha. discriminate.
  - change (String c s +:+ String newline EmptyString)
      with (String c (s +:+ String newline EmptyString)).
    cbn [Contains]. rewrite IH.
    change (String c (s +:+ String newline EmptyString))
      with (String c s +:+ String newline EmptyString).
    rewrite prefix_newline by assumption. reflexivity.
Qed.

Lemma Contains_TrimSuffix sub s :
  sub <> EmptyString -> no_newline sub = true ->
  Contains (TrimSuffix s (String newline EmptyString)) sub = Contains s sub.
Proof.
  intros Hne Hnl. destruct (TrimSuffix_newline s) as [-> | Hs]; [reflexivity |].
  rewrite Hs at 2. symmetry. apply Contains_newline; assumption.
Qed.

End Power_flag.

Section Power_flag_read.

Context {W : Type} (H : Host W).

(** X14. The power-adapter flag of a battery read is true exactly when
    the output of the query contains the text AC Power somewhere, and
    it is read from the same output as the percent. *)
Theorem power_flag_is_AC_Power_in_the_report v w raw w1 percent power :
  os_exec H "/usr/bin/pmset" ["-g"; "batt"] w = (CmdOutput raw, w1) ->
  result_of (getBatteryInfo H (v, w)) = Done (percent, power) ->
  (power = true <-> exists a b, raw = a +:+ "AC Power" +:+ b)
  /\ exists pre post, raw = pre +:+ percent +:+ "%" +:+ post.
Proof.
  intros Hrun. unfold getBatteryInfo, getCommandOutput, Output. go_unfold.
  rewrite Hrun. cbn [fst snd app]. rewrite find_TrimSuffix.
  destruct (find_shape raw) as [-> | (g & -> & _ & _ & pre & post & Hraw)];
    [discriminate |].
  cbn. intros [= <- <-]. split.
  - rewrite Contains_TrimSuffix by (discriminate || reflexivity). apply Contains_iff.
  - exists pre, post. exact Hraw.
Qed.

End Power_flag_read.

Lemma power_flag_is_AC_Power_in_the_report_on_fake :
  (true = true <-> exists a b, Fake.pmset_batt charging = a +:+ "AC Power" +:+ b)
  /\ exists pre post, Fake.pmset_batt charging = pre +:+ "87" +:+ "%" +:+ post.
Proof.
  apply (power_flag_is_AC_Power_in_the_report Fake.host Fake.testhost charging
           (Fake.pmset_batt charging) charging "87" true); reflexivity.
Defined.

Section Encoding.

Import GoJson GoRegexp.

#[local] Arguments String.append : simpl nomatch.

Lemma hostname_char_is_safe c : hostname_char c = true -> htmlSafe c = true.
Proof.
  destruct c as [[] [] [] [] [] [] [] []]; vm_compute; intros Hc;
    (reflexivity || discriminate Hc).
Qed.

Lemma safe_is_ascii c : htmlSafe c = true -> in_range 0 127 c = true.
Proof.
  destruct c as [[] [] [] [] [] [] [] []]; vm_compute; intros Hc;
    (reflexivity || discriminate Hc).
Qed.

Lemma appendString_safe s :
  string_forallb htmlSafe s = true -> appendString Boundary s = s.
Proof.
  induction s as [| c s IH]; [reflexivity |]. cbn [string_forallb].
  intros [Hc Hs]%andb_true_iff. cbn [appendString].
  rewrite (safe_is_ascii c Hc), Hc, (IH Hs). reflexivity.
Qed.

Lemma forallb_append p s t :
  string_forallb p (s +:+ t) = string_forallb p s && string_forallb p t.
Proof.
  induction s as [| c s IH]; [reflexivity |].
  change (String c s +:+ t) with (String c (s +:+ t)).
  cbn [string_forallb]. rewrite IH. apply andb_assoc.
Qed.

(** X15. A sanitized name needs no escaping: a string made of bytes of
    [a-zA-Z0-9_-], followed by any suffix the encoder leaves alone, is
    written into a descriptor as it is, between two quotes. *)
Theorem sanitized_names_are_written_verbatim name suffix :
  string_forallb hostname_char name = true ->
  string_forallb htmlSafe suffix = true ->
  encode_string (name +:+ suffix) = quoted (name +:+ suffix).
Proof.
  intros Hname Hsuffix. unfold encode_string. f_equal.
  apply appendString_safe. rewrite forallb_append, Hsuffix, andb_true_r.
  clear Hsuffix. induction name as [| c name IH]; [reflexivity |].
  cbn [string_forallb] in *. apply andb_true_iff in Hname as [Hc Hname].
  rewrite (hostname_char_is_safe c Hc), (IH Hname). reflexivity.
Qed.

End Encoding.

Lemma sanitized_names_are_written_verbatim_for_testhost :
  GoJson.encode_string ("testhost" +:+ " Battery Level")
  = GoJson.quoted ("testhost" +:+ " Battery Level").
Proof.
  apply (sanitized_names_are_written_verbatim "testhost" " Battery Level"); reflexivity.
Defined.

Section Retained.

Context {W : Type} (H : Host W).

(** No two entities of the pass share a discovery topic. *)
Lemma discovery_topics_differ v :
  NoDup (map (fun e => config_topic e.1 e.2) (discovery_entities v)).
Proof.
  unfold discovery_entities, config_topic. cbn [map fst snd unique_id_of].
  cbn [volumeNumberConfig switchConfig batteryConfig MainGo.powerAdapterConfig
       Number_UniqueID Switch_UniqueID Sensor_UniqueID Binary_UniqueID].
  repeat (constructor;
          [ intros Hin; apply list_elem_of_In in Hin; cbn [In] in Hin;
            repeat (destruct Hin as [Hin | Hin];
                    [ apply String.eqb_eq in Hin;
                      rewrite ?eqb_append_l, ?append_assoc, ?eqb_append_l in Hin;
                      vm_compute in Hin; discriminate Hin |]);
            exact Hin
          | ]).
  constructor.
Qed.

Lemma payloads_on_cons topic t r p l :
  payloads_on topic ((t, r, p) :: l)
  = if String.eqb t topic then p :: payloads_on topic l else payloads_on topic l.
Proof. unfold payloads_on. cbn. destruct (String.eqb t topic); reflexivity. Qed.

Lemma payloads_on_other l topic :
  ~ In topic (map (fun p => p.1.1) l) -> payloads_on topic l = [].
Proof.
  induction l as [| [[t r] p] l IH]; [reflexivity |].
  cbn [map fst snd In]. intros Hnot. rewrite payloads_on_cons.
  destruct (String.eqb_spec t topic) as [-> | _]; [exfalso; apply Hnot; left; reflexivity |].
  apply IH. intros Hin. apply Hnot. right. exact Hin.
Qed.

Lemma payloads_on_unique l topic r payload :
  NoDup (map (fun p => p.1.1) l) -> In (topic, r, payload) l ->
  payloads_on topic l = [payload].
Proof.
  induction l as [| [[t r'] p] l IH]; [intros _ [] |].
  cbn [map fst snd]. intros Hnd Hin. inversion Hnd as [| ? ? Hfresh Hnd']; subst.
  rewrite payloads_on_cons. destruct Hin as [[= -> -> ->] | Hin].
  - rewrite String.eqb_refl. f_equal. apply payloads_on_other.
    intros Hin. apply Hfresh, list_elem_of_In. exact Hin.
  - destruct (String.eqb_spec t topic) as [-> | _].
    + exfalso. apply Hfresh, list_elem_of_In.
      exact (in_map (fun q => q.1.1) _ _ Hin).
    + exact (IH Hnd' Hin).
Qed.

Lemma published_on_payloads topic tr :
  published_on topic tr = payloads_on topic (publishes tr).
Proof.
  induction tr as [| e tr IH]; [reflexivity |].
  destruct e; try exact IH.
  change (publishes (EvPublish topic0 qos retained payload :: tr))
    with ((topic0, retained, payload) :: publishes tr).
  rewrite payloads_on_cons, <- IH. unfold published_on. cbn.
  destruct (String.eqb topic0 topic); reflexivity.
Qed.

(** X16. In a discovery pass the only message sent on the config topic
    of an entity is the descriptor of that entity, whatever the tokens
    of the publishes do: the seven topics differ from one another for
    any host identity, so no descriptor is sent over another. *)
Theorem every_descriptor_has_its_own_topic v w e :
  In e (discovery_entities v) ->
  published_on (config_topic e.1 e.2)
               (trace_of (MainGo.publishHADiscoveryConfig H (v, w)))
  = [Marshal.Marshal e.2].
Proof.
  intros Hin. rewrite published_on_payloads, (proj2 (discovery_publishes H v w)).
  apply (payloads_on_unique _ _ true).
  - rewrite map_map. cbn [discovery_message fst snd]. apply discovery_topics_differ.
  - apply (in_map discovery_message _ _ Hin).
Qed.

End Retained.

Lemma every_descriptor_has_its_own_topic_when_offline :
  published_on "homeassistant/switch/testhost_display_sleep/config"
    (trace_of (MainGo.publishHADiscoveryConfig offline (Fake.testhost, Fake.world)))
  = [Marshal.Marshal
       (OfSwitch (switchConfig "testhost" "homeassistant/testhost" " Display Sleep"
                    "displaysleep" "_display_sleep" (device_of "testhost" "testhost")))].
Proof.
  apply (every_descriptor_has_its_own_topic offline Fake.testhost Fake.world
           ("switch",
            OfSwitch (switchConfig "testhost" "homeassistant/testhost" " Display Sleep"
                        "displaysleep" "_display_sleep" (device_of "testhost" "testhost")))).
  cbn. tauto.
Defined.

Section Announced.

Context {W : Type} (H : Host W).

Lemma mutator_first name arg (rest : Go W unit) s :
  exists tl, execs (trace_of ((runCommand H name arg;; rest) s)) = (name, arg) :: tl.
Proof.
  destruct s as [v w]. rewrite trace_bind, runCommand_run.
  destruct (os_exec H name arg w) as [[out | err] w1]; cbn; eauto.
Qed.

(** X17. The command topics the discovery pass announces are the
    topics the callback serves: on each of them some payload makes the
    callback run a host command, and a message on any other topic is
    dropped without a trace. *)
Theorem announced_command_topics_are_served v w :
  Forall (fun topic =>
            exists payload first rest,
              execs (trace_of (MainGo.messageHandler H topic payload (v, w)))
              = first :: rest)
         (omap command_topic_of (map snd (discovery_entities v)))
  /\ (forall topic payload,
        ~ In topic (omap command_topic_of (map snd (discovery_entities v))) ->
        MainGo.messageHandler H topic payload (v, w) = (Done tt, (v, w), [])).
Proof.
  change (omap command_topic_of (map snd (discovery_entities v))) with (command_topics v).
  split.
  - unfold command_topics. repeat apply Forall_cons_2; [.. | apply Forall_nil_2].
    + exists "50". rewrite main_volume_topic.
      destruct (mutator_first osascript ["-e"; "set volume output volume 50"]
                  (updateVolume H;; updateMute H) (v, w)) as [tl Htl].
      eexists _, _. exact Htl.
    + exists "true". rewrite main_mute_topic.
      destruct (mutator_first osascript ["-e"; "set volume output muted true"]
                  (updateVolume H;; updateMute H) (v, w)) as [tl Htl].
      eexists _, _. exact Htl.
    + exists "sleep". rewrite main_sleep_topic. eexists _, _.
      apply main_power_execs. intros. apply runCommand_execs.
    + exists "displaysleep". rewrite main_displaysleep_topic. eexists _, _.
      apply main_power_execs. intros. apply runCommand_execs.
    + exists "shutdown". rewrite main_shutdown_topic. eexists _, _.
      unfold MainGo.on_shutdown. cbn [String.eqb Ascii.eqb Bool.eqb].
      rewrite trace_bind, execs_app.
      destruct (acknowledge_execs H "shutdown" (v, w)) as (-> & ->).
      rewrite commandShutdown_execs. reflexivity.
  - intros topic payload Hnot.
    assert (Hne : forall suffix,
               In (topic_prefix v +:+ suffix) (command_topics v) ->
               String.eqb topic (topic_prefix v +:+ suffix) = false).
    { intros suffix Hin. apply String.eqb_neq. intros ->. exact (Hnot Hin). }
    unfold command_topics in Hne. cbn [In] in Hne.
    unfold MainGo.messageHandler.
    repeat (rewrite noop_bind by (apply if_topic_other, Hne; tauto)).
    apply if_topic_other, Hne. tauto.
Qed.

End Announced.

Section Json_string.

Import GoJson.

#[local] Arguments String.append : simpl nomatch.

Lemma safe_byte_is_plain c :
  htmlSafe c = true -> Ascii.eqb c backslash = false /\ plain_byte c = true.
Proof.
  destruct c as [[] [] [] [] [] [] [] []]; vm_compute; intros Hc;
    (split; reflexivity) || discriminate Hc.
Qed.

Lemma high_byte_is_plain_byte c :
  in_range 0 127 c = false -> Ascii.eqb c backslash = false /\ plain_byte c = true.
Proof.
  destruct c as [[] [] [] [] [] [] [] []]; vm_compute; intros Hc;
    (split; reflexivity) || discriminate Hc.
Qed.

Lemma quote_and_backslash_escape c :
  Ascii.eqb c quote_char || Ascii.eqb c backslash = true ->
  Ascii.eqb c "u" = false /\ short_escape c = true.
Proof.
  destruct c as [[] [] [] [] [] [] [] []]; vm_compute; intros Hc;
    (split; reflexivity) || discriminate Hc.
Qed.

Lemma plain_step c x :
  Ascii.eqb c backslash = false -> plain_byte c = true ->
  well_escaped Plain (String c x) = well_escaped Plain x.
Proof. intros Hb Hp. cbn [well_escaped]. rewrite Hb, Hp. reflexivity. Qed.

Lemma short_escape_step e x :
  Ascii.eqb e "u" = false -> short_escape e = true ->
  well_escaped Plain (String backslash (String e x)) = well_escaped Plain x.
Proof.
  intros Hu He. cbn [well_escaped]. rewrite Ascii.eqb_refl, Hu, He. reflexivity.
Qed.

Lemma hex_escape_step h1 h2 h3 h4 x :
  is_hex h1 = true -> is_hex h2 = true -> is_hex h3 = true -> is_hex h4 = true ->
  well_escaped Plain
    (String backslash (String "u" (String h1 (String h2 (String h3 (String h4 x))))))
  = well_escaped Plain x.
Proof.
  intros H1 H2 H3 H4. cbn [well_escaped]. rewrite Ascii.eqb_refl.
  change (Ascii.eqb "u" "u") with true. cbv iota. rewrite H1, H2, H3, H4. reflexivity.
Qed.

Lemma hex_digit_is_hex n : 0 <= n < 16 -> is_hex (hex_digit n) = true.
Proof.
  intros Hn. rewrite <- (Z2Nat.id n) by lia.
  assert (Hk : (Z.to_nat n < 16)%nat) by lia.
  revert Hk. generalize (Z.to_nat n) as k. intros k Hk.
  do 16 (destruct k as [|k]; [reflexivity |]). lia.
Qed.

Lemma escape_byte_is_well_escaped c x :
  in_range 0 127 c = true ->
  well_escaped Plain (escape_byte c +:+ x) = well_escaped Plain x.
Proof.
  intros Hc. unfold escape_byte.
  destruct (Ascii.eqb c quote_char || Ascii.eqb c backslash) eqn:Hq.
  { destruct (quote_and_backslash_escape c Hq) as [Hu He].
    exact (short_escape_step c x Hu He). }
  destruct (byte_of c =? 8); [exact (short_escape_step "b" x eq_refl eq_refl) |].
  destruct (byte_of c =? 12); [exact (short_escape_step "f" x eq_refl eq_refl) |].
  destruct (byte_of c =? 10); [exact (short_escape_step "n" x eq_refl eq_refl) |].
  destruct (byte_of c =? 13); [exact (short_escape_step "r" x eq_refl eq_refl) |].
  destruct (byte_of c =? 9); [exact (short_escape_step "t" x eq_refl eq_refl) |].
  unfold in_range in Hc. apply andb_true_iff in Hc as [Hlo Hhi].
  apply Z.leb_le in Hlo, Hhi.
  apply (hex_escape_step "0" "0" (hex_digit (byte_of c / 16)) (hex_digit (byte_of c mod 16)) x);
    try reflexivity; apply hex_digit_is_hex.
  - split; [apply Z.div_pos; lia | apply Z.div_lt_upper_bound; lia].
  - apply Z.mod_pos_bound. lia.
Qed.

Lemma ascii_chunk_is_well_escaped c :
  in_range 0 127 c = true ->
  forall x,
    well_escaped Plain ((if htmlSafe c then String c EmptyString else escape_byte c) +:+ x)
    = well_escaped Plain x.
Proof.
  intros Hc x. destruct (htmlSafe c) eqn:Hs.
  - destruct (safe_byte_is_plain c Hs) as [Hb Hp]. exact (plain_step c x Hb Hp).
  - apply escape_byte_is_well_escaped, Hc.
Qed.

Lemma high_byte_is_plain c :
  in_range 0 127 c = false ->
  forall x, well_escaped Plain (String c x) = well_escaped Plain x.
Proof.
  intros Hc x. destruct (high_byte_is_plain_byte c Hc) as [Hb Hp]. exact (plain_step c x Hb Hp).
Qed.

Lemma in_range_high lo hi c :
  in_range lo hi c = true -> 128 <= lo -> in_range 0 127 c = false.
Proof.
  unfold in_range. intros [H1 H2]%andb_true_iff Hlo.
  apply andb_false_iff. right. apply Z.leb_gt. apply Z.leb_le in H1. lia.
Qed.

Lemma utf8_size_high c r k :
  in_range 0 127 c = false -> utf8_size (String c r) = S k -> high_bytes k r = true.
Proof.
  intros Hc. unfold utf8_size. rewrite Hc. cbv zeta.
  destruct (in_range 194 223 c).
  { destruct r as [| b1 r]; [discriminate |].
    destruct (in_range 128 191 b1) eqn:H1; [| discriminate].
    intros [= <-]. cbn [high_bytes]. rewrite (in_range_high _ _ _ H1) by lia.
    reflexivity. }
  destruct (in_range 224 239 c).
  { destruct r as [| b1 [| b2 r]]; try discriminate.
    match goal with
    | |- (if ?f b1 && ?g b2 then _ else _) = _ -> _ =>
        destruct (f b1) eqn:H1; [| discriminate];
        destruct (g b2) eqn:H2; [| discriminate]
    end.
    intros [= <-]. cbn [high_bytes].
    rewrite (in_range_high _ _ _ H2) by lia.
    repeat match type of H1 with
           | (if ?b then _ else _) _ = true => destruct b
           end;
      rewrite (in_range_high _ _ _ H1) by lia; reflexivity. }
  destruct (in_range 240 244 c); [| discriminate].
  destruct r as [| b1 [| b2 [| b3 r]]]; try discriminate.
  match goal with
  | |- (if ?f b1 && ?g b2 && ?g b3 then _ else _) = _ -> _ =>
      destruct (f b1) eqn:H1; [| discriminate];
      destruct (g b2) eqn:H2; [| discriminate];
      destruct (g b3) eqn:H3; [| discriminate]
  end.
  intros [= <-]. cbn [high_bytes].
  rewrite (in_range_high _ _ _ H2), (in_range_high _ _ _ H3) by lia.
  repeat match type of H1 with
         | (if ?b then _ else _) _ = true => destruct b
         end;
    rewrite (in_range_high _ _ _ H1) by lia; reflexivity.
Qed.

Lemma line_separator_digit s h :
  line_separator s = Some h -> h = "8"%char \/ h = "9"%char.
Proof.
  unfold line_separator. destruct s as [| b0 [| b1 [| b2 r]]]; try discriminate.
  destruct ((byte_of b0 =? 226) && (byte_of b1 =? 128)); [| discriminate].
  cbn [andb]. unfold in_range. destruct ((168 <=? byte_of b2) && (byte_of b2 <=? 169)) eqn:Hb;
    [| discriminate].
  intros [= <-]. apply andb_true_iff in Hb as [Hlo Hhi].
  apply Z.leb_le in Hlo, Hhi.
  assert (Hcases : byte_of b2 = 168 \/ byte_of b2 = 169) by lia.
  destruct Hcases as [-> | ->]; [left | right]; reflexivity.
Qed.

Lemma boundary_step_is_well_escaped c r :
  (forall at_, cursor_ok at_ r = true -> well_escaped Plain (appendString at_ r) = true) ->
  well_escaped Plain
    (if in_range 0 127 c
     then (if htmlSafe c then String c EmptyString else escape_byte c)
          +:+ appendString Boundary r
     else match utf8_size (String c r) with
          | O => String backslash "ufffd" +:+ appendString Boundary r
          | S k =>
              match line_separator (String c r) with
              | Some h =>
                  String backslash ("u202" +:+ String h EmptyString)
                  +:+ appendString (Drop k) r
              | None => String c (appendString (Copy k) r)
              end
          end) = true.
Proof.
  intros IH. destruct (in_range 0 127 c) eqn:Hc.
  - rewrite ascii_chunk_is_well_escaped by exact Hc. apply IH. reflexivity.
  - destruct (utf8_size (String c r)) as [| k] eqn:Hsz.
    + assert (Hchunk : forall x, well_escaped Plain (String backslash "ufffd" +:+ x)
                                 = well_escaped Plain x)
        by (intros x; exact (hex_escape_step "f" "f" "f" "d" x eq_refl eq_refl eq_refl eq_refl)).
      rewrite Hchunk. apply IH. reflexivity.
    + destruct (line_separator (String c r)) as [h |] eqn:Hsep.
      * assert (Hchunk : forall x,
                   well_escaped Plain (String backslash ("u202" +:+ String h EmptyString) +:+ x)
                   = well_escaped Plain x).
        { intros x. destruct (line_separator_digit _ _ Hsep) as [-> | ->].
          - exact (hex_escape_step "2" "0" "2" "8" x eq_refl eq_refl eq_refl eq_refl).
          - exact (hex_escape_step "2" "0" "2" "9" x eq_refl eq_refl eq_refl eq_refl). }
        rewrite Hchunk. apply IH. reflexivity.
      * rewrite high_byte_is_plain by exact Hc. apply IH.
        cbn [cursor_ok]. exact (utf8_size_high c r k Hc Hsz).
Qed.

Lemma appendString_is_well_escaped s : forall at_,
  cursor_ok at_ s = true -> well_escaped Plain (appendString at_ s) = true.
Proof.
  induction s as [| c r IH]; intros at_ Hok; [reflexivity |].
  cbn [appendString]. destruct at_ as [| [| k] | [| k]];
    try (apply boundary_step_is_well_escaped; exact IH).
  - cbn [cursor_ok high_bytes] in Hok. apply andb_true_iff in Hok as [Hc Hr].
    rewrite high_byte_is_plain by (apply negb_true_iff, Hc). apply IH. exact Hr.
  - apply IH. reflexivity.
Qed.

(** X19. Whatever bytes a name or a model holds, what [json.Marshal]
    writes for it is a well-formed JSON string: two quotes around a
    body in which every backslash starts an escape of JSON and no quote,
    control character, ampersand or angle bracket stands outside an
    escape. *)
Theorem encode_string_is_well_formed s :
  encode_string s = quoted (appendString Boundary s)
  /\ well_escaped Plain (appendString Boundary s) = true.
Proof.
  split; [reflexivity |]. apply appendString_is_well_escaped. reflexivity.
Qed.

End Json_string.

Section Mute.

Context {W : Type} (H : Host W).

Ltac topics :=
  unfold published_on, topic_prefix; cbn [omap list_omap];
  rewrite ?String.eqb_refl, ?eqb_append_l;
  cbn [String.eqb Ascii.eqb Bool.eqb omap list_omap].

Lemma updateMute_published_mute v w :
  published_on (topic_prefix v +:+ "/state/mute") (trace_of (updateMute H (v, w)))
  = fresh_mute H (v, w).
Proof. unfold fresh_mute. go_exec; topics; reflexivity. Qed.

Lemma updateVolume_published_mute v w :
  published_on (topic_prefix v +:+ "/state/mute") (trace_of (updateVolume H (v, w))) = [].
Proof. go_exec; topics; reflexivity. Qed.

Lemma state_publisher_published_mute v w :
  published_on (topic_prefix v +:+ "/state/mute")
    (trace_of ((updateVolume H;; updateMute H) (v, w)))
  = match result_of (updateVolume H (v, w)) with
    | Done _ => fresh_mute H (state_of (updateVolume H (v, w)))
    | _ => []
    end.
Proof.
  rewrite trace_bind, published_on_app, updateVolume_published_mute.
  pose proof (keeps_updateVolume H (v, w)) as Hk. unfold vars_of, state_of in *.
  destruct (updateVolume H (v, w)) as [[[[] | c |] [v' w']] t];
    cbn [fst snd result_of state_of app] in *; subst;
    rewrite ?updateMute_published_mute; reflexivity.
Qed.

(** X20. A mute command publishes the mute state the host reports, not
    the value it asked for: after the mutator has run, what goes out on
    the mute state topic is a fresh read made once the volume state has
    been published (in the second variant, a second later), and nothing
    when the volume read ends the process. *)
Theorem mute_state_is_read_back v w payload b out w1 :
  GoStrconv.ParseBool payload = Some b ->
  os_exec H (setMute_call b).1 (setMute_call b).2 w = (CmdOutput out, w1) ->
  published_on (topic_prefix v +:+ "/state/mute")
    (trace_of (MainGo.messageHandler H (topic_prefix v +:+ "/command/mute") payload (v, w)))
  = match result_of (updateVolume H (v, w1)) with
    | Done _ => fresh_mute H (state_of (updateVolume H (v, w1)))
    | _ => []
    end
  /\ published_on (topic_prefix v +:+ "/state/mute")
       (trace_of (Part000.messageHandler H (topic_prefix v +:+ "/command/mute") payload (v, w)))
     = match result_of (updateVolume H (v, time_passes H (1 * Second) w1)) with
       | Done _ =>
           fresh_mute H (state_of (updateVolume H (v, time_passes H (1 * Second) w1)))
       | _ => []
       end.
Proof.
  intros Hb Hset. rewrite main_mute_topic, part_mute_topic.
  unfold MainGo.on_mute, Part000.on_mute, after_event. rewrite Hb.
  unfold setMute. cbn [setMute_call fst snd] in Hset.
  split.
  - rewrite trace_bind, runCommand_run, Hset. cbn [fst snd result_of state_of trace_of].
    rewrite published_on_app. apply state_publisher_published_mute.
  - cbn [trace_of snd]. rewrite trace_bind, runCommand_run, Hset.
    cbn [fst snd result_of state_of trace_of]. rewrite trace_bind.
    unfold Sleep at 1 2 3. cbn [fst snd result_of state_of trace_of].
    unfold Part000.received. unfold published_on at 1.
    cbn [omap list_omap app]. apply state_publisher_published_mute.
Qed.

End Mute.

Lemma mute_state_is_read_back_on_fake :
  published_on "homeassistant/testhost/state/mute"
    (trace_of (MainGo.messageHandler never_muted "homeassistant/testhost/command/mute" "true"
                 (Fake.testhost, Fake.world))) = ["false"]
  /\ published_on "homeassistant/testhost/state/mute"
       (trace_of (Part000.messageHandler never_muted "homeassistant/testhost/command/mute"
                    "true" (Fake.testhost, Fake.world))) = ["false"].
Proof.
  apply (mute_state_is_read_back never_muted Fake.testhost Fake.world "true" true EmptyString
           Fake.world); reflexivity.
Defined.
